(** * Analytics report pipeline of powerdemon.ai

    A shallow embedding of the two statistics collectors,
    [scripts/yandex_direct_stats.py] and [scripts/yandex_metrica_stats.py],
    together with the properties their specification states about report
    retrieval, row normalisation, aggregation, rendering and the cumulative
    CSV store.

    Conventions of the embedding:
    - Python [str] is [string] (the UTF-8 bytes of the text), [int] is [Z];
    - Python [float] is idealised as an exact rational [Q]: binary64 rounding,
      overflow, infinities and NaN are outside the model;
    - a raised exception is the [Raise] branch of [Py.result];
    - the HTTP service, the clock, the console and the store file are explicit
      arguments and results of the functions that use them. *)

From Stdlib Require Import ZArith QArith Qround Qabs String Ascii DecimalString Lia Sorted.
From stdpp Require Import base gmap list strings.

Local Open Scope Z_scope.

(** ** The fragment of the Python runtime the collectors rely on *)

Module Py.

(** Exceptions, each with its message.  [NonFinite]
    is not a Python exception: it marks the [float] values ([inf], [nan]) the
    rational model does not represent. *)
Inductive exn : Type :=
| Exception (msg : string)
| ValueError (msg : string)
| ZeroDivisionError (msg : string)
| NonFinite.

Inductive result (A : Type) : Type :=
| Ok (a : A)
| Raise (e : exn).
Arguments Ok {A} a.
Arguments Raise {A} e.

Definition bind {A B : Type} (m : result A) (k : A -> result B) : result B :=
  match m with
  | Ok a => k a
  | Raise e => Raise e
  end.

(** [[f(x) for x in xs]] where [f] may raise: the first exception wins. *)
Fixpoint traverse {A B : Type} (f : A -> result B) (xs : list A) : result (list B) :=
  match xs with
  | [] => Ok []
  | x :: xs' =>
      bind (f x) (fun y => bind (traverse f xs') (fun ys => Ok (y :: ys)))
  end.

(** Python values a function may hand back when its result is not typed:
    [None] or an [int]. *)
Inductive value : Type :=
| PyNone
| PyInt (n : Z).

(** *** Strings *)

Definition LF : ascii := "010".
Definition TAB : ascii := "009".
Definition nl : string := String LF "".

(** ["".join(l)] *)
Definition concat_str (l : list string) : string := foldr String.append "" l.

(** [str.isspace] on the ASCII range. *)
Definition is_space (c : ascii) : bool :=
  let n := nat_of_ascii c in
  ((9 <=? n)%nat && (n <=? 13)%nat) || ((28 <=? n)%nat && (n <=? 32)%nat).

Fixpoint lstrip (s : string) : string :=
  match s with
  | EmptyString => EmptyString
  | String c s' => if is_space c then lstrip s' else s
  end.

Fixpoint rstrip (s : string) : string :=
  match s with
  | EmptyString => EmptyString
  | String c s' =>
      match rstrip s' with
      | EmptyString => if is_space c then EmptyString else String c EmptyString
      | t => String c t
      end
  end.

(** [s.strip()] *)
Definition strip (s : string) : string := rstrip (lstrip s).

(** [s.split(sep)] for a one-character separator: never empty, and
    [sep.join(split sep s) = s]. *)
Fixpoint split (sep : ascii) (s : string) : list string :=
  match s with
  | EmptyString => [EmptyString]
  | String c s' =>
      if Ascii.eqb c sep then EmptyString :: split sep s'
      else match split sep s' with
           | w :: ws => String c w :: ws
           | [] => [String c EmptyString]
           end
  end.

(** [str(n)] for an [int]. *)
Definition str_int (n : Z) : string := NilZero.string_of_int (Z.to_int n).

(** *** [int(s)] and [float(s)] on strings *)

Definition digit_of (c : ascii) : option Z :=
  let n := nat_of_ascii c in
  if ((48 <=? n)%nat && (n <=? 57)%nat)%bool then Some (Z.of_nat (n - 48)) else None.

(** The value of a digit part: decimal digits, single underscores allowed
    between two digits.  [prev] tells whether the previous character was a
    digit. *)
Fixpoint digit_part (s : string) (acc : Z) (prev : bool) : option Z :=
  match s with
  | EmptyString => if prev then Some acc else None
  | String c s' =>
      match digit_of c with
      | Some d => digit_part s' (10 * acc + d) true
      | None =>
          if (Ascii.eqb c "_" && prev)%bool then digit_part s' acc false else None
      end
  end.

(** An optional sign in front of a literal. *)
Definition split_sign (s : string) : bool * string :=
  match s with
  | String "-" s' => (true, s')
  | String "+" s' => (false, s')
  | _ => (false, s)
  end.

Definition apply_sign (neg : bool) (n : Z) : Z := if neg then - n else n.

Definition int_literal (s : string) : option Z :=
  let '(neg, body) := split_sign (strip s) in
  match digit_part body 0 false with
  | Some n => Some (apply_sign neg n)
  | None => None
  end.

(** [int(s)]: a [ValueError] when [s] is not an integer literal.  (The
    message quotes [s] with plain quotes; CPython uses [repr].) *)
Definition int_of_str (s : string) : result Z :=
  match int_literal s with
  | Some n => Ok n
  | None =>
      Raise (ValueError ("invalid literal for int() with base 10: '" +:+ s +:+ "'"))
  end.

(** The longest prefix made of digits and underscores, and what follows. *)
Fixpoint span_digits (s : string) : string * string :=
  match s with
  | EmptyString => (EmptyString, EmptyString)
  | String c s' =>
      if (bool_decide (is_Some (digit_of c)) || Ascii.eqb c "_")%bool
      then let '(d, r) := span_digits s' in (String c d, r)
      else (EmptyString, s)
  end.

Fixpoint count_digits (s : string) : nat :=
  match s with
  | EmptyString => O
  | String c s' =>
      if bool_decide (is_Some (digit_of c)) then S (count_digits s') else count_digits s'
  end.

Definition opt_digit_part (s : string) : option Z :=
  match s with
  | EmptyString => Some 0
  | _ => digit_part s 0 false
  end.

(** The exponent suffix of a float literal: absent, or [e] with a signed
    digit part. *)
Definition exponent (s : string) : option Z :=
  match s with
  | EmptyString => Some 0
  | String c s' =>
      if (Ascii.eqb c "e" || Ascii.eqb c "E")%bool
      then let '(neg, body) := split_sign s' in
           match digit_part body 0 false with
           | Some n => Some (apply_sign neg n)
           | None => None
           end
      else None
  end.

(** [m * 10^e] as a rational. *)
Definition scale10 (m e : Z) : Q :=
  if 0 <=? e then inject_Z (m * 10 ^ e) else Qmake m (Z.to_pos (10 ^ (- e))).

Definition decimal_literal (s : string) : option Q :=
  let '(ip, r1) := span_digits s in
  let '(fp, r2) :=
    match r1 with
    | String "." r => span_digits r
    | _ => (EmptyString, r1)
    end in
  match ip, fp with
  | EmptyString, EmptyString => None
  | _, _ =>
      match opt_digit_part ip, opt_digit_part fp, exponent r2 with
      | Some i, Some f, Some e =>
          let k := Z.of_nat (count_digits fp) in
          Some (scale10 (i * 10 ^ k + f) (e - k))
      | _, _, _ => None
      end
  end.

Definition lower (c : ascii) : ascii :=
  let n := nat_of_ascii c in
  if ((65 <=? n)%nat && (n <=? 90)%nat)%bool then ascii_of_nat (n + 32) else c.

Fixpoint lower_str (s : string) : string :=
  match s with
  | EmptyString => EmptyString
  | String c s' => String (lower c) (lower_str s')
  end.

Definition non_finite_literal (s : string) : bool :=
  let t := lower_str s in
  (String.eqb t "inf" || String.eqb t "infinity" || String.eqb t "nan")%bool.

(** [float(s)], exact: the literal's rational value.  A [ValueError] when
    [s] is not a float literal; [inf] and [nan] are reported as [NonFinite]. *)
Definition float_of_str (s : string) : result Q :=
  let '(neg, body) := split_sign (strip s) in
  if non_finite_literal body then Raise NonFinite
  else match decimal_literal body with
       | Some q => Ok (if neg then Qopp q else q)
       | None => Raise (ValueError ("could not convert string to float: '" +:+ s +:+ "'"))
       end.

(** *** Arithmetic *)

(** [a / b] on two [int]s: true division. *)
Definition true_div (a b : Z) : result Q :=
  if b =? 0 then Raise (ZeroDivisionError "division by zero")
  else Ok (inject_Z a / inject_Z b)%Q.

(** [x < y] on numbers. *)
Definition Qltb (x y : Q) : bool :=
  match Qcompare x y with
  | Lt => true
  | _ => false
  end.

(** [sum(l)]: a left fold from 0. *)
Definition Zsum (l : list Z) : Z := foldl Z.add 0 l.
Definition Qsum (l : list Q) : Q := foldl Qplus 0%Q l.


(** *** Formatting numbers *)

(** Rounding to the nearest integer, ties to even, as the [f] presentation
    type rounds the exact value. *)
Definition round_half_even (q : Q) : Z :=
  let f := Qfloor q in
  match Qcompare (q - inject_Z f) (1 # 2) with
  | Lt => f
  | Gt => f + 1
  | Eq => if Z.even f then f else f + 1
  end.

Fixpoint zeros (n : nat) : string :=
  match n with
  | O => ""
  | S n' => String "0" (zeros n')
  end.

(** [s.zfill(width)] for a string of digits. *)
Definition zfill (width : nat) (s : string) : string :=
  zeros (width - String.length s) +:+ s.

(** [f"{x:.df}"]: fixed point with [d] decimals; the sign of a negative
    value is kept even when it rounds to zero. *)
Definition format_f (d : nat) (x : Q) : string :=
  let p := 10 ^ Z.of_nat d in
  let n := round_half_even (Qabs x * inject_Z p) in
  let sign := match Qcompare x 0 with Lt => "-" | _ => "" end in
  let frac := match d with
              | O => ""
              | _ => "." +:+ zfill d (str_int (n mod p))
              end in
  sign +:+ str_int (n / p) +:+ frac.

Definition is_integral (q : Q) : bool := Qeq_bool q (inject_Z (Qfloor q)).

Fixpoint repr_decimals (fuel d : nat) (x : Q) : nat :=
  match fuel with
  | O => d
  | S fuel' =>
      if is_integral (x * inject_Z (10 ^ Z.of_nat d)) then d
      else repr_decimals fuel' (S d) x
  end.

(** [str(x)] for a [float]: the shortest decimal expansion with at least one
    decimal.  This is CPython's [repr] for the values the collectors store
    (results of [round(x, 1)] and [round(x, 0)] of magnitude between [1e-4]
    and [1e16]); longer expansions are cut at 17 decimals. *)
Definition str_float (x : Q) : string := format_f (repr_decimals 16 1 x) x.

(** *** The clock *)

(** [datetime.now()], down to the second. *)
Record datetime : Type := {
  year : Z; month : Z; day : Z; hour : Z; minute : Z; second : Z
}.

(** [t.strftime('%Y-%m-%d %H:%M')] *)
Definition strftime_minutes (t : datetime) : string :=
  zfill 4 (str_int (year t)) +:+ "-" +:+ zfill 2 (str_int (month t)) +:+ "-"
  +:+ zfill 2 (str_int (day t)) +:+ " " +:+ zfill 2 (str_int (hour t)) +:+ ":"
  +:+ zfill 2 (str_int (minute t)).

End Py.

(** ** [scripts/yandex_direct_stats.py] *)

Module Direct.
Import Py.

(** *** [get_report]: the Reports API client *)

Record response : Type := { status_code : Z; text : string }.

(** What one POST to [API_URL + "reports"] carries: the two credential
    headers and the selection of the body (the other headers and parameters
    are constants). *)
Record request : Type := {
  Authorization : string;
  ClientLogin : string;
  DateFrom : string;
  DateTo : string;
  Filter : option (list string);
  ReportName : string
}.

(** [campaign_ids] is a list here: [None] and the empty list, which the
    code treats alike, are both []. *)
Definition build_request (token login date_from date_to : string)
    (campaign_ids : list Z) : request :=
  {| Authorization := "Bearer " +:+ token;
     ClientLogin := login;
     DateFrom := date_from;
     DateTo := date_to;
     Filter := match campaign_ids with
               | [] => None
               | _ => Some (str_int <$> campaign_ids)
               end;
     ReportName := "PowerDemon_" +:+ date_from +:+ "_" +:+ date_to |}.

(** What the client does to the outside world, in order. *)
Inductive event : Type :=
| Post (r : request)
| Sleep (seconds : Z).

(** The service: its answer to the [n]-th POST (counted from 0) of the
    session. *)
Definition service : Type := nat -> response.

(** The three answers the first dispatch of [get_report] tells apart. *)
Inductive report_state : Type := READY | PENDING | FAILED.

Definition classify (r : response) : report_state :=
  if status_code r =? 200 then READY
  else if status_code r =? 201 then PENDING
  else FAILED.

Definition timeout_message : string := "Отчёт не сформировался за 50 секунд".

Definition api_error_message (r : response) : string :=
  "API Error " +:+ str_int (status_code r) +:+ ": " +:+ text r.

(** The body of [for _ in range(10)]: [rounds] iterations are left and
    [sent] POSTs were made so far.  Only status 200 leaves the loop. *)
Fixpoint poll (svc : service) (req : request) (rounds sent : nat)
    : result string * list event :=
  match rounds with
  | O => (Raise (Exception timeout_message), [])
  | S rounds' =>
      let response := svc sent in
      if status_code response =? 200
      then (Ok (text response), [Sleep 5; Post req])
      else let '(res, tr) := poll svc req rounds' (S sent) in
           (res, Sleep 5 :: Post req :: tr)
  end.

Definition get_report (svc : service) (token login date_from date_to : string)
    (campaign_ids : list Z) : result string * list event :=
  let req := build_request token login date_from date_to campaign_ids in
  let response := svc O in
  if status_code response =? 200 then (Ok (text response), [Post req])
  else if status_code response =? 201 then
    let '(res, tr) := poll svc req 10 1 in (res, Post req :: tr)
  else (Raise (Exception (api_error_message response)), [Post req]).

(** The trace of a session with [k] re-submissions after the first POST. *)
Definition polling_trace (req : request) (k : nat) : list event :=
  Post req :: concat (replicate k [Sleep 5; Post req]).

Definition is_post (e : event) : bool :=
  match e with
  | Post _ => true
  | Sleep _ => false
  end.

(** How many requests a session sent, and how long it slept. *)
Definition posts (tr : list event) : nat := length (List.filter is_post tr).

Fixpoint slept (tr : list event) : Z :=
  match tr with
  | [] => 0
  | Post _ :: tr' => slept tr'
  | Sleep n :: tr' => n + slept tr'
  end.

(** *** [parse_tsv] *)

(** A parsed row: the [dict] from column name to the text of the field. *)
Abbreviation row := (gmap string string).

(** [dict(zip(keys, values))]: pairs up to the shorter list; a later pair
    with the same key replaces an earlier one. *)
Definition dict_zip (keys values : list string) : row :=
  foldl (fun d kv => <[kv.1 := kv.2]> d) ∅ (zip keys values).

Definition parse_tsv (tsv_data : string) : list row :=
  match split LF (strip tsv_data) with
  | [] => []
  | header :: data =>
      let headers := split TAB header in
      (fun line => dict_zip headers (split TAB line)) <$> data
  end.

(** *** [generate_report_md] *)

(** [int(r.get(k, 0))] and [float(r.get(k, 0))] *)
Definition metric_int (r : row) (k : string) : result Z :=
  match r !! k with
  | Some s => int_of_str s
  | None => Ok 0
  end.

Definition metric_float (r : row) (k : string) : result Q :=
  match r !! k with
  | Some s => float_of_str s
  | None => Ok 0%Q
  end.

(** [sum(int(r.get(k, 0)) for r in rows)] *)
Definition sum_int (k : string) (rows : list row) : result Z :=
  bind (traverse (fun r => metric_int r k) rows) (fun l => Ok (Zsum l)).

Definition sum_float (k : string) (rows : list row) : result Q :=
  bind (traverse (fun r => metric_float r k) rows) (fun l => Ok (Qsum l)).

(** The running sums of one group or one day. *)
Record bucket : Type := { impressions : Z; clicks : Z; cost : Q }.

Definition empty_bucket : bucket := {| impressions := 0; clicks := 0; cost := 0 |}.

Definition add_metrics (i c : Z) (x : Q) (b : bucket) : bucket :=
  {| impressions := impressions b + i;
     clicks := clicks b + c;
     cost := (cost b + x)%Q |}.

(** The [groups] and [days] dictionaries, in insertion order. *)
Abbreviation buckets := (list (string * bucket)).

(** [if g not in d: d[g] = {0, 0, 0}] followed by the update of [d[g]]. *)
Fixpoint update (g : string) (f : bucket -> bucket) (d : buckets) : buckets :=
  match d with
  | [] => [(g, f empty_bucket)]
  | (g', b) :: d' =>
      if String.eqb g g' then (g', f b) :: d' else (g', b) :: update g f d'
  end.

Definition missing_key : string := "—".

(** One iteration of the grouping loops, keyed by column [key]. *)
Definition add_row (key : string) (d : buckets) (r : row) : result buckets :=
  let g := default missing_key (r !! key) in
  bind (metric_int r "Impressions") (fun i =>
  bind (metric_int r "Clicks") (fun c =>
  bind (metric_float r "Cost") (fun x =>
  Ok (update g (add_metrics i c x) d)))).

Fixpoint aggregate_from (key : string) (d : buckets) (rows : list row) : result buckets :=
  match rows with
  | [] => Ok d
  | r :: rows' => bind (add_row key d r) (fun d' => aggregate_from key d' rows')
  end.

Definition aggregate (key : string) (rows : list row) : result buckets :=
  aggregate_from key [] rows.

(** [(clicks / impressions * 100) if impressions > 0 else 0] *)
Definition ctr_percent (clicks impressions : Z) : result Q :=
  if 0 <? impressions
  then bind (true_div clicks impressions) (fun q => Ok (q * 100)%Q)
  else Ok 0%Q.

Definition warning_flag : string := "⚠️".
Definition positive_flag : string := "✅".

(** ["⚠️" if ctr < 3 else "✅" if ctr > 7 else ""] *)
Definition ctr_flag (ctr : Q) : string :=
  if Qltb ctr 3 then warning_flag
  else if Qltb 7 ctr then positive_flag
  else "".

(** [sorted(groups.items(), key=clicks, reverse=True)]: stable, so groups
    with equal clicks stay in insertion order. *)
Fixpoint insert_by_clicks (x : string * bucket) (l : buckets) : buckets :=
  match l with
  | [] => [x]
  | y :: l' =>
      if clicks (snd x) <? clicks (snd y) then y :: insert_by_clicks x l'
      else x :: l
  end.

Definition sorted_by_clicks (d : buckets) : buckets := foldr insert_by_clicks [] d.

(** [sorted(days.keys())] *)
Fixpoint insert_key (k : string) (l : list string) : list string :=
  match l with
  | [] => [k]
  | k' :: l' => if String.ltb k' k then k' :: insert_key k l' else k :: l
  end.

Definition sorted_keys (d : buckets) : list string := foldr insert_key [] (fst <$> d).

(** [days[d]] *)
Fixpoint lookup_bucket (k : string) (d : buckets) : bucket :=
  match d with
  | [] => empty_bucket
  | (k', b) :: d' => if String.eqb k k' then b else lookup_bucket k d'
  end.

Definition report_header (now : datetime) (date_from date_to business : string)
    : string :=
  "# Отчёт Яндекс.Директ: " +:+ business +:+ nl
  +:+ "**Период:** " +:+ date_from +:+ " — " +:+ date_to +:+ nl
  +:+ "**Дата формирования:** " +:+ strftime_minutes now +:+ nl +:+ nl.

Definition summary_section (total_impressions total_clicks : Z) (avg_ctr total_cost : Q)
    : string :=
  "## Сводка" +:+ nl +:+ nl
  +:+ "| Показы | Клики | CTR | Расход |" +:+ nl
  +:+ "|--------|-------|-----|--------|" +:+ nl
  +:+ "| " +:+ str_int total_impressions +:+ " | " +:+ str_int total_clicks
  +:+ " | " +:+ format_f 1 avg_ctr +:+ "% | " +:+ format_f 0 total_cost
  +:+ "₽ |" +:+ nl +:+ nl.

(** One line of the table of groups. *)
Definition group_line (gname : string) (data : bucket) : result string :=
  bind (ctr_percent (clicks data) (impressions data)) (fun ctr =>
  Ok ("| " +:+ gname +:+ " | " +:+ str_int (impressions data) +:+ " | "
      +:+ str_int (clicks data) +:+ " | " +:+ format_f 1 ctr +:+ "% "
      +:+ ctr_flag ctr +:+ " | " +:+ format_f 0 (cost data) +:+ "₽ |" +:+ nl)).

Definition day_line (d : string) (data : bucket) : string :=
  "| " +:+ d +:+ " | " +:+ str_int (impressions data) +:+ " | "
  +:+ str_int (clicks data) +:+ " | " +:+ format_f 0 (cost data) +:+ "₽ |" +:+ nl.

Definition no_data_note : string :=
  "> Нет данных за указанный период. Кампания, возможно, ещё на модерации." +:+ nl.

Definition footer : string :=
  nl +:+ "---" +:+ nl
  +:+ "*Сгенерировано автоматически скриптом yandex_direct_stats.py*" +:+ nl.

(** Everything of the report below its three header lines. *)
Definition report_body (rows : list row) : result string :=
  match rows with
  | [] => Ok no_data_note
  | _ =>
      bind (sum_int "Impressions" rows) (fun total_impressions =>
      bind (sum_int "Clicks" rows) (fun total_clicks =>
      bind (sum_float "Cost" rows) (fun total_cost =>
      bind (ctr_percent total_clicks total_impressions) (fun avg_ctr =>
      bind (aggregate "AdGroupName" rows) (fun groups =>
      bind (traverse (fun gd => group_line (fst gd) (snd gd)) (sorted_by_clicks groups))
        (fun group_lines =>
      bind (aggregate "Date" rows) (fun days =>
      Ok (summary_section total_impressions total_clicks avg_ctr total_cost
          +:+ "## По группам" +:+ nl +:+ nl
          +:+ "| Группа | Показы | Клики | CTR | Расход |" +:+ nl
          +:+ "|--------|--------|-------|-----|--------|" +:+ nl
          +:+ concat_str group_lines
          +:+ nl
          +:+ "## По дням" +:+ nl +:+ nl
          +:+ "| Дата | Показы | Клики | Расход |" +:+ nl
          +:+ "|------|--------|-------|--------|" +:+ nl
          +:+ concat_str ((fun d => day_line d (lookup_bucket d days)) <$> sorted_keys days)
          +:+ footer))))))))
  end.

(** [generate_report_md]; [now] is the reading of the clock it takes. *)
Definition generate_report_md (now : datetime) (rows : list row)
    (date_from date_to business : string) : result string :=
  bind (report_body rows) (fun body =>
  Ok (report_header now date_from date_to business +:+ body)).



End Direct.

(** ** [scripts/yandex_metrica_stats.py] *)

Module Metrica.
Import Py.

(** The rows [get_traffic_summary], [get_traffic_sources] and
    [get_search_queries] build. *)
Record traffic_row : Type := {
  date : string;
  visits : Z;
  users : Z;
  pageviews : Z;
  bounce_rate : Q;
  avg_duration : Q
}.

Record source_row : Type := {
  source : string;
  source_visits : Z;
  source_users : Z;
  source_bounce_rate : Q
}.

Record query_row : Type := { query : string; query_visits : Z }.

(** *** [generate_report_md] *)

(** [sum(r[k] for r in traffic) / len(traffic) if traffic else 0] *)
Definition mean (l : list Q) : Q :=
  match l with
  | [] => 0%Q
  | _ => (Qsum l / inject_Z (Z.of_nat (length l)))%Q
  end.

Definition warning_flag : string := "⚠️".
Definition positive_flag : string := "✅".

(** ["⚠️" if avg_bounce > 50 else "✅"] *)
Definition bounce_flag (avg_bounce : Q) : string :=
  if Qltb 50 avg_bounce then warning_flag else positive_flag.

Definition report_header (now : datetime) (date_from date_to business : string)
    : string :=
  "# Отчёт Яндекс.Метрика: " +:+ business +:+ nl
  +:+ "**Период:** " +:+ date_from +:+ " — " +:+ date_to +:+ nl
  +:+ "**Дата формирования:** " +:+ strftime_minutes now +:+ nl +:+ nl.

Definition summary_section (traffic : list traffic_row) : string :=
  let total_visits := Zsum (visits <$> traffic) in
  let total_users := Zsum (users <$> traffic) in
  let total_views := Zsum (pageviews <$> traffic) in
  let avg_bounce := mean (bounce_rate <$> traffic) in
  let avg_duration := mean (avg_duration <$> traffic) in
  "## Сводка" +:+ nl +:+ nl
  +:+ "| Визиты | Пользователи | Просмотры | Отказы | Ср. время |" +:+ nl
  +:+ "|--------|-------------|-----------|--------|----------|" +:+ nl
  +:+ "| " +:+ str_int total_visits +:+ " | " +:+ str_int total_users +:+ " | "
  +:+ str_int total_views +:+ " | " +:+ format_f 0 avg_bounce +:+ "% "
  +:+ bounce_flag avg_bounce +:+ " | " +:+ format_f 0 avg_duration +:+ " сек |"
  +:+ nl +:+ nl.

Definition day_line (r : traffic_row) : string :=
  "| " +:+ date r +:+ " | " +:+ str_int (visits r) +:+ " | " +:+ str_int (users r)
  +:+ " | " +:+ str_int (pageviews r) +:+ " | " +:+ str_float (bounce_rate r)
  +:+ "% |" +:+ nl.

Definition source_line (r : source_row) : string :=
  "| " +:+ source r +:+ " | " +:+ str_int (source_visits r) +:+ " | "
  +:+ str_int (source_users r) +:+ " | " +:+ str_float (source_bounce_rate r)
  +:+ "% |" +:+ nl.

Definition query_line (r : query_row) : string :=
  "| " +:+ query r +:+ " | " +:+ str_int (query_visits r) +:+ " |" +:+ nl.

(** [sorted(sources, key=visits, reverse=True)], stable. *)
Fixpoint insert_by_visits (x : source_row) (l : list source_row) : list source_row :=
  match l with
  | [] => [x]
  | y :: l' =>
      if source_visits x <? source_visits y then y :: insert_by_visits x l'
      else x :: l
  end.

Definition sorted_by_visits (l : list source_row) : list source_row :=
  foldr insert_by_visits [] l.

Definition sources_section (sources : list source_row) : string :=
  match sources with
  | [] => ""
  | _ =>
      nl +:+ "## Источники трафика" +:+ nl +:+ nl
      +:+ "| Источник | Визиты | Пользователи | Отказы |" +:+ nl
      +:+ "|----------|--------|-------------|--------|" +:+ nl
      +:+ concat_str (source_line <$> sorted_by_visits sources)
  end.

Definition queries_section (queries : list query_row) : string :=
  match queries with
  | [] => ""
  | _ =>
      nl +:+ "## Поисковые запросы (топ)" +:+ nl +:+ nl
      +:+ "| Запрос | Визиты |" +:+ nl
      +:+ "|--------|--------|" +:+ nl
      +:+ concat_str (query_line <$> take 20 queries)
  end.

Definition no_data_note : string := "> Нет данных за указанный период." +:+ nl.

Definition footer : string :=
  nl +:+ "---" +:+ nl
  +:+ "*Сгенерировано автоматически скриптом yandex_metrica_stats.py*" +:+ nl.

(** Everything of the report below its three header lines. *)
Definition report_body (traffic : list traffic_row) (sources : list source_row)
    (queries : list query_row) : string :=
  match traffic with
  | [] => no_data_note
  | _ =>
      summary_section traffic
      +:+ "## По дням" +:+ nl +:+ nl
      +:+ "| Дата | Визиты | Пользователи | Просмотры | Отказы |" +:+ nl
      +:+ "|------|--------|-------------|-----------|--------|" +:+ nl
      +:+ concat_str (day_line <$> traffic)
      +:+ sources_section sources
      +:+ queries_section queries
      +:+ footer
  end.

(** [generate_report_md]; [now] is the reading of the clock it takes. *)
Definition generate_report_md (now : datetime) (traffic : list traffic_row)
    (sources : list source_row) (queries : list query_row)
    (date_from date_to business : string) : string :=
  report_header now date_from date_to business +:+ report_body traffic sources queries.

(** *** [append_to_csv]: the cumulative store *)

(** The store file as the [csv] module sees it: the fields of each line, in
    line order (fields without line breaks, every line terminated). *)
Abbreviation csv_row := (list string).

(** The file at [csv_path] ([None]: it does not exist) and the console. *)
Record world : Type := {
  file : option (list csv_row);
  console : list string
}.

Definition fieldnames : csv_row :=
  ["Дата"; "Визиты"; "Пользователи"; "Просмотры"; "Отказы %"; "Ср. время (сек)"].

Definition date_column : string := "Дата".

(** One row of [csv.DictReader]: the fields zipped with the header, header
    names left over mapped to [None].  (Fields beyond the header go under
    the key [None], which no lookup by name reaches.) *)
Definition reader_dict (fields : list string) (r : csv_row) : gmap string (option string) :=
  let d := foldl (fun d kv => <[kv.1 := Some kv.2]> d) ∅ (zip fields r) in
  foldl (fun d key => <[key := None]> d) d (drop (length r) fields).

(** [csv.DictReader(f, delimiter=";")]: the first line names the fields,
    empty lines are skipped. *)
Definition dict_reader (lines : list csv_row) : list (gmap string (option string)) :=
  match lines with
  | [] => []
  | fields :: data => reader_dict fields <$> filter (fun r => r ≠ []) data
  end.

(** The loop filling [existing_dates] with [row.get("Дата", "")]. *)
Definition existing_dates (lines : list csv_row) : gset (option string) :=
  list_to_set ((fun d => default (Some "") (d !! date_column)) <$> dict_reader lines).

(** The line [csv.DictWriter] writes for a new row. *)
Definition csv_record (r : traffic_row) : csv_row :=
  [date r; str_int (visits r); str_int (users r); str_int (pageviews r);
   str_float (bounce_rate r); str_float (avg_duration r)].

Definition new_rows (existing : gset (option string)) (traffic : list traffic_row)
    : list traffic_row :=
  filter (fun r => Some (date r) ∉ existing) traffic.

(** [append_to_csv(traffic, csv_path)], with [csv_name = csv_path.name].
    The function has no [return] with a value: it hands back [None]. *)
Definition append_to_csv (traffic : list traffic_row) (csv_name : string) (w : world)
    : value * world :=
  let existing :=
    match file w with
    | Some lines => existing_dates lines
    | None => ∅
    end in
  match new_rows existing traffic with
  | [] =>
      (PyNone, {| file := file w;
                  console := console w ++ ["   CSV: нет новых данных"] |})
  | rows =>
      let old :=
        match file w with
        | Some lines => lines
        | None => [fieldnames]
        end in
      (PyNone, {| file := Some (old ++ (csv_record <$> rows));
                  console := console w ++
                    ["   CSV: +" +:+ str_int (Z.of_nat (length rows)) +:+ " строк → "
                     +:+ csv_name] |})
  end.

(** A store the collector keeps: no file yet, or a file whose first line
    is the header [append_to_csv] writes. *)
Definition stored (w : world) : Prop :=
  file w = None \/ exists data, file w = Some (fieldnames :: data).

(** The lines below the header. *)
Definition data_lines (w : world) : list csv_row :=
  match file w with
  | Some lines => tail lines
  | None => []
  end.

(** The lines of the file that record date [d]: the data lines whose first
    field is [d]. *)
Definition records_for (d : string) (w : world) : list csv_row :=
  filter (fun r => head r = Some d) (data_lines w).

(** The dates the next run finds in the file. *)
Definition known_dates (w : world) : gset (option string) :=
  match file w with
  | Some lines => existing_dates lines
  | None => ∅
  end.

End Metrica.

(** ** [load_credentials], the same function in both collectors *)

Module Credentials.
Import Py.

Definition CR : ascii := "013".

(** The one-character line boundaries of [str.splitlines]. *)
Definition is_line_break (c : ascii) : bool :=
  let n := nat_of_ascii c in
  ((10 <=? n)%nat && (n <=? 13)%nat) || ((28 <=? n)%nat && (n <=? 30)%nat).

(** Puts a character in front of the first line. *)
Definition push (c : ascii) (lines : list string) : list string :=
  match lines with
  | [] => [String c EmptyString]
  | l :: ls => String c l :: ls
  end.

(** [s.splitlines()]: lines end at LF, CR, CR LF, VT, FF, FS, GS, RS and at
    NEL, LS and PS (here in their UTF-8 encodings); a final line break opens
    no further line. *)
Fixpoint splitlines (s : string) : list string :=
  match s with
  | EmptyString => []
  | String c s1 =>
      if is_line_break c then
        match s1 with
        | String c2 s2 =>
            if (Ascii.eqb c CR && Ascii.eqb c2 LF)%bool
            then EmptyString :: splitlines s2
            else EmptyString :: splitlines s1
        | EmptyString => [EmptyString]
        end
      else
        match s1 with
        | String c2 s2 =>
            if (Ascii.eqb c "194" && Ascii.eqb c2 "133")%bool
            then EmptyString :: splitlines s2
            else
              match s2 with
              | String c3 s3 =>
                  if (Ascii.eqb c "226" && Ascii.eqb c2 "128"
                      && (Ascii.eqb c3 "168" || Ascii.eqb c3 "169"))%bool
                  then EmptyString :: splitlines s3
                  else push c (splitlines s1)
              | EmptyString => push c (splitlines s1)
              end
        | EmptyString => [String c EmptyString]
        end
  end.

(** [c in s] for a character. *)
Fixpoint contains (c : ascii) (s : string) : bool :=
  match s with
  | EmptyString => false
  | String c' s' => (Ascii.eqb c' c || contains c s')%bool
  end.

(** [s.startswith(c)] for a character. *)
Definition startswith (c : ascii) (s : string) : bool :=
  match s with
  | String c' _ => Ascii.eqb c' c
  | EmptyString => false
  end.

(** [s.split(sep, 1)] when [sep] occurs in [s]: what is before and what is
    after its first occurrence. *)
Fixpoint split_first (sep : ascii) (s : string) : option (string * string) :=
  match s with
  | EmptyString => None
  | String c s' =>
      if Ascii.eqb c sep then Some (EmptyString, s')
      else match split_first sep s' with
           | Some (a, b) => Some (String c a, b)
           | None => None
           end
  end.

(** The body of the loop over the lines. *)
Definition read_line (env : gmap string string) (line : string) : gmap string string :=
  if (contains "=" line && negb (startswith "#" line))%bool then
    match split_first "=" line with
    | Some (k, v) => <[strip k := strip v]> env
    | None => env
    end
  else env.

(** [load_credentials(business)]; [cred_files] gives the text of the
    [.credentials] file of a business, [None] when there is no such file. *)
Definition load_credentials (cred_files : string -> option string) (business : string)
    : gmap string string :=
  match cred_files business with
  | Some text => foldl read_line ∅ (splitlines text)
  | None => ∅
  end.

(** The key and value a line defines, if it defines one. *)
Definition entry (line : string) : option (string * string) :=
  if (contains "=" line && negb (startswith "#" line))%bool then
    match split_first "=" line with
    | Some (k, v) => Some (strip k, strip v)
    | None => None
    end
  else None.

End Credentials.

(** ** The Metrica API client of [yandex_metrica_stats.py] *)

Module MetricaApi.
Import Py.

(** One record of the decoded JSON answer, in the shape the API documents:
    the names of its dimensions and its metric values.  (An answer of another
    shape makes the code raise [KeyError] or [TypeError]; that is outside
    this model.) *)
Record item : Type := { dimensions : list string; metrics : list Q }.

(** An answer: status, raw text, and the list under the key [data] of its
    JSON body ([None]: the body has no such key). *)
Record response : Type := {
  status_code : Z;
  text : string;
  data : option (list item)
}.

(** What one GET to [METRICA_API] carries. *)
Record request : Type := {
  Authorization : string;
  ids : string;
  date1 : string;
  date2 : string;
  metrics_param : string;
  dimensions_param : string;
  group : string;
  limit : Z
}.

Definition service : Type := request -> response.

Inductive error : Type :=
| ApiError (msg : string)
| IndexError (msg : string).

Inductive outcome (A : Type) : Type :=
| Done (a : A)
| Failed (e : error).
Arguments Done {A} a.
Arguments Failed {A} e.

Definition and_then {A B : Type} (m : outcome A) (k : A -> outcome B) : outcome B :=
  match m with
  | Done a => k a
  | Failed e => Failed e
  end.

(** [[f(x) for x in xs]] where [f] may raise. *)
Fixpoint for_each {A B : Type} (f : A -> outcome B) (xs : list A) : outcome (list B) :=
  match xs with
  | [] => Done []
  | x :: xs' => and_then (f x) (fun y => and_then (for_each f xs') (fun ys => Done (y :: ys)))
  end.

(** [l[i]] *)
Definition index {A : Type} (l : list A) (i : nat) : outcome A :=
  match l !! i with
  | Some x => Done x
  | None => Failed (IndexError "list index out of range")
  end.

Definition make_request (token counter_id date_from date_to metrics dimensions group : string)
    : request :=
  {| Authorization := "OAuth " +:+ token;
     ids := counter_id;
     date1 := date_from;
     date2 := date_to;
     metrics_param := metrics;
     dimensions_param := dimensions;
     group := group;
     limit := 100 |}.

(** [get_metrica_data(...)] followed by [.get("data", [])], as its three
    callers use it. *)
Definition get_metrica_data (api : service)
    (token counter_id date_from date_to metrics dimensions group : string)
    : outcome (list item) :=
  let response :=
    api (make_request token counter_id date_from date_to metrics dimensions group) in
  if negb (status_code response =? 200) then
    Failed (ApiError ("Metrica API Error " +:+ str_int (status_code response) +:+ ": "
                      +:+ text response))
  else Done (default [] (data response)).

(** [int(x)] for a [float]: truncation towards zero. *)
Definition int_of_float (x : Q) : Z := Z.quot (Qnum x) (Zpos (Qden x)).

(** [round(x, ndigits)] for a [float]: to the nearest multiple of
    [10^-ndigits], ties to even. *)
Definition round_ndigits (x : Q) (ndigits : nat) : Q :=
  let p := 10 ^ Z.of_nat ndigits in
  let n := round_half_even (Qabs x * inject_Z p) in
  Qmake (match Qcompare x 0 with Lt => - n | _ => n end) (Z.to_pos p).

Definition default_dimensions : string := "ym:s:date".
Definition default_group : string := "day".

Definition traffic_row_of (it : item) : outcome Metrica.traffic_row :=
  and_then (index (dimensions it) 0) (fun date =>
  let m := metrics it in
  and_then (index m 0) (fun m0 =>
  and_then (index m 1) (fun m1 =>
  and_then (index m 2) (fun m2 =>
  and_then (index m 3) (fun m3 =>
  and_then (index m 4) (fun m4 =>
  Done {| Metrica.date := date;
          Metrica.visits := int_of_float m0;
          Metrica.users := int_of_float m1;
          Metrica.pageviews := int_of_float m2;
          Metrica.bounce_rate := round_ndigits m3 1;
          Metrica.avg_duration := round_ndigits m4 0 |})))))).

Definition get_traffic_summary (api : service) (token counter_id date_from date_to : string)
    : outcome (list Metrica.traffic_row) :=
  and_then
    (get_metrica_data api token counter_id date_from date_to
       "ym:s:visits,ym:s:users,ym:s:pageviews,ym:s:bounceRate,ym:s:avgVisitDurationSeconds"
       default_dimensions default_group)
    (for_each traffic_row_of).

(** The request [get_traffic_summary] sends. *)
Definition traffic_request (token counter_id date_from date_to : string) : request :=
  make_request token counter_id date_from date_to
    "ym:s:visits,ym:s:users,ym:s:pageviews,ym:s:bounceRate,ym:s:avgVisitDurationSeconds"
    default_dimensions default_group.

Definition source_row_of (it : item) : outcome Metrica.source_row :=
  and_then (index (dimensions it) 0) (fun source =>
  let m := metrics it in
  and_then (index m 0) (fun m0 =>
  and_then (index m 1) (fun m1 =>
  and_then (index m 2) (fun m2 =>
  Done {| Metrica.source := source;
          Metrica.source_visits := int_of_float m0;
          Metrica.source_users := int_of_float m1;
          Metrica.source_bounce_rate := round_ndigits m2 1 |})))).

Definition get_traffic_sources (api : service) (token counter_id date_from date_to : string)
    : outcome (list Metrica.source_row) :=
  and_then
    (get_metrica_data api token counter_id date_from date_to
       "ym:s:visits,ym:s:users,ym:s:bounceRate" "ym:s:lastTrafficSource" default_group)
    (for_each source_row_of).

Definition not_set : string := "(not set)".

(** One iteration of the loop of [get_search_queries]: the row to append,
    if any. *)
Definition query_row_of (it : item) : outcome (option Metrica.query_row) :=
  and_then (index (dimensions it) 0) (fun query =>
  if (negb (String.eqb query "") && negb (String.eqb query not_set))%bool then
    and_then (index (metrics it) 0) (fun m0 =>
    Done (Some {| Metrica.query := query; Metrica.query_visits := int_of_float m0 |}))
  else Done None).

(** [sorted(rows, key=..., reverse=True)] for an integer key: stable. *)
Fixpoint insert_desc {A : Type} (key : A -> Z) (x : A) (l : list A) : list A :=
  match l with
  | [] => [x]
  | y :: l' => if key x <? key y then y :: insert_desc key x l' else x :: l
  end.

Definition sorted_desc {A : Type} (key : A -> Z) (l : list A) : list A :=
  foldr (insert_desc key) [] l.

Definition get_search_queries (api : service) (token counter_id date_from date_to : string)
    : outcome (list Metrica.query_row) :=
  and_then
    (get_metrica_data api token counter_id date_from date_to
       "ym:s:visits" "ym:s:lastSearchPhrase" default_group)
    (fun items =>
  and_then (for_each query_row_of items) (fun rows =>
  Done (sorted_desc Metrica.query_visits (omap id rows)))).

End MetricaApi.

(** ** Vocabulary for the tables of the Direct report *)

Module Tables.
Import Py.

(** The group a row falls into: [r.get(key, "—")]. *)
Definition group_of (key : string) (r : Direct.row) : string :=
  default Direct.missing_key (r !! key).

(** The distinct elements of a list, each at its first occurrence. *)
Definition first_seen (l : list string) : list string :=
  reverse (remove_dups (reverse l)).


(** How often a character occurs in a string. *)
Fixpoint count_char (c : ascii) (s : string) : nat :=
  match s with
  | EmptyString => O
  | String c' s' => if Ascii.eqb c' c then S (count_char c s') else count_char c s'
  end.

(** Descending and ascending order of the tables. *)
Definition descending {A : Type} (key : A -> Z) (l : list A) : Prop :=
  StronglySorted (fun a b => key b <= key a) l.

Definition ascending (l : list string) : Prop :=
  Sorted (fun a b => String.leb a b = true) l.

End Tables.

(** ** Concrete inputs used by the examples below *)

Module Scenarios.
Import Py.

(** *** Service behaviours *)

(** PENDING on attempts 1-3, READY on attempt 4. *)
Definition ready_on_fourth (payload : string) : Direct.service :=
  fun n => if (n <? 3)%nat then {| Direct.status_code := 201; Direct.text := "" |}
           else {| Direct.status_code := 200; Direct.text := payload |}.

(** PENDING for good. *)
Definition always_pending : Direct.service :=
  fun _ => {| Direct.status_code := 201; Direct.text := "" |}.

(** PENDING, then a rejection, then PENDING for good. *)
Definition rejected_while_polling : Direct.service :=
  fun n => match n with
           | 1%nat => {| Direct.status_code := 400; Direct.text := "Bad Request" |}
           | _ => {| Direct.status_code := 201; Direct.text := "" |}
           end.

(** *** TSV payloads *)

(** A header of two columns, a line of three fields, a line of one. *)
Definition ragged_payload : string :=
  "Date	Clicks" +:+ nl +:+ "2024-01-01	5	9" +:+ nl +:+ "2024-01-02" +:+ nl.

(** The same payload with the surplus field removed. *)
Definition trimmed_payload : string :=
  "Date	Clicks" +:+ nl +:+ "2024-01-01	5" +:+ nl +:+ "2024-01-02" +:+ nl.


(** A data line without the Cost column. *)
Definition no_cost_payload : string :=
  "Date	AdGroupName	Impressions	Clicks" +:+ nl
  +:+ "2024-01-01	Brand	100	5" +:+ nl.

(** *** Clock readings *)

Definition at_0800 : datetime :=
  {| year := 2024; month := 1; day := 8; hour := 8; minute := 0; second := 7 |}.

Definition at_0800_later : datetime :=
  {| year := 2024; month := 1; day := 8; hour := 8; minute := 0; second := 52 |}.

Definition at_0801 : datetime :=
  {| year := 2024; month := 1; day := 8; hour := 8; minute := 1; second := 7 |}.

(** *** Rows *)

(** Two days in two ad groups; day 2 has 2000 impressions and 60 clicks. *)
Definition two_days_payload : string :=
  "Date	AdGroupName	Impressions	Clicks	Cost" +:+ nl
  +:+ "2024-01-01	Brand	1000	50	120.50" +:+ nl
  +:+ "2024-01-02	Generic	1500	40	80.25" +:+ nl
  +:+ "2024-01-02	Brand	500	20	19.25" +:+ nl.

(** The buckets of [two_days_payload], by ad group and by day. *)
Definition two_days_groups : list (string * Direct.bucket) :=
  [ ("Brand", {| Direct.impressions := 1500; Direct.clicks := 70;
                 Direct.cost := 139.7500%Q |});
    ("Generic", {| Direct.impressions := 1500; Direct.clicks := 40;
                   Direct.cost := 80.25%Q |}) ].

Definition two_days_days : list (string * Direct.bucket) :=
  [ ("2024-01-01", {| Direct.impressions := 1000; Direct.clicks := 50;
                      Direct.cost := 120.50%Q |});
    ("2024-01-02", {| Direct.impressions := 2000; Direct.clicks := 60;
                      Direct.cost := 99.5000%Q |}) ].

(** Two days of site traffic, with traffic sources and search queries. *)
Definition jan_1 : Metrica.traffic_row :=
  {| Metrica.date := "2024-01-01"; Metrica.visits := 10; Metrica.users := 8;
     Metrica.pageviews := 30; Metrica.bounce_rate := 45.5%Q;
     Metrica.avg_duration := 120%Q |}.

Definition jan_2 : Metrica.traffic_row :=
  {| Metrica.date := "2024-01-02"; Metrica.visits := 20; Metrica.users := 18;
     Metrica.pageviews := 40; Metrica.bounce_rate := 60%Q;
     Metrica.avg_duration := 61%Q |}.

(** The first day again, as a later run computes it. *)
Definition jan_1_recomputed : Metrica.traffic_row :=
  {| Metrica.date := "2024-01-01"; Metrica.visits := 12; Metrica.users := 9;
     Metrica.pageviews := 33; Metrica.bounce_rate := 41.7%Q;
     Metrica.avg_duration := 118%Q |}.

Definition some_sources : list Metrica.source_row :=
  [ {| Metrica.source := "Search engine traffic"; Metrica.source_visits := 12;
       Metrica.source_users := 11; Metrica.source_bounce_rate := 40%Q |};
    {| Metrica.source := "Ad traffic"; Metrica.source_visits := 18;
       Metrica.source_users := 15; Metrica.source_bounce_rate := 62.5%Q |} ].

Definition some_queries : list Metrica.query_row :=
  [ {| Metrica.query := "sushi delivery"; Metrica.query_visits := 7 |} ].

(** *** Stores *)

Definition no_store : Metrica.world := {| Metrica.file := None; Metrica.console := [] |}.

(** The store after a run that recorded the first day. *)
Definition store_with_jan_1 : Metrica.world :=
  {| Metrica.file := Some [Metrica.fieldnames; Metrica.csv_record jan_1];
     Metrica.console := [] |}.

(** A file that exists and is empty: not something [append_to_csv] leaves
    behind, since it writes the header whenever it creates the file. *)
Definition empty_file : Metrica.world :=
  {| Metrica.file := Some []; Metrica.console := [] |}.

(** *** Credential files *)

Definition netashi_credentials : string :=
  "# Yandex" +:+ nl
  +:+ "YANDEX_DIRECT_TOKEN = old" +:+ nl
  +:+ "YANDEX_DIRECT_LOGIN=netashi" +:+ nl
  +:+ "just a note" +:+ nl
  +:+ "YANDEX_DIRECT_TOKEN=y0_AgAAAA==" +:+ nl.

Definition credential_files : string -> option string :=
  fun business => if String.eqb business "netashi" then Some netashi_credentials else None.

(** *** Answers of the Metrica API *)

(** Search phrases: two real ones, an empty one and the placeholder. *)
Definition phrases_api : MetricaApi.service :=
  fun _ =>
    {| MetricaApi.status_code := 200;
       MetricaApi.text := "";
       MetricaApi.data := Some
         [ {| MetricaApi.dimensions := ["sushi delivery"]; MetricaApi.metrics := [3%Q] |};
           {| MetricaApi.dimensions := [""]; MetricaApi.metrics := [40%Q] |};
           {| MetricaApi.dimensions := ["(not set)"]; MetricaApi.metrics := [25%Q] |};
           {| MetricaApi.dimensions := ["rolls near me"]; MetricaApi.metrics := [7%Q] |} ] |}.

(** One day of traffic. *)
Definition one_day_api : MetricaApi.service :=
  fun _ =>
    {| MetricaApi.status_code := 200;
       MetricaApi.text := "";
       MetricaApi.data := Some
         [ {| MetricaApi.dimensions := ["2024-01-01"];
              MetricaApi.metrics := [10%Q; 8%Q; 30%Q; 45.52%Q; 120.4%Q] |} ] |}.

(** The service refuses the token. *)
Definition forbidden_api : MetricaApi.service :=
  fun _ =>
    {| MetricaApi.status_code := 403;
       MetricaApi.text := "Access denied";
       MetricaApi.data := None |}.

(** A file kept by hand under other column names. *)
Definition foreign_file : Metrica.world :=
  {| Metrica.file := Some [["date"; "visits"]; ["2024-01-01"; "10"]];
     Metrica.console := [] |}.

End Scenarios.

(** ** MetricsClient: polling in [get_report] *)

Module ClientProps.
Import Py Direct Scenarios.

Section Polling.
Variable svc : service.
Variable req : request.

(** While no answer has status 200, the loop runs to its end. *)
Lemma poll_exhausted (n sent : nat) :
  (forall j, (j < n)%nat -> status_code (svc (sent + j)%nat) <> 200) ->
  poll svc req n sent
  = (Raise (Exception timeout_message), concat (replicate n [Sleep 5; Post req])).
Proof.
  revert sent. induction n as [|n IH]; intros sent Hno; [reflexivity|].
  cbn [poll replicate concat].
  pose proof (Hno O ltac:(lia)) as H0. rewrite Nat.add_0_r in H0.
  apply Z.eqb_neq in H0. rewrite H0.
  rewrite IH; [reflexivity|].
  intros j Hj. replace (S sent + j)%nat with (sent + S j)%nat by lia.
  apply Hno. lia.
Qed.

(** The first answer with status 200 ends the loop with its text. *)
Lemma poll_ready (k n sent : nat) :
  (k < n)%nat ->
  (forall j, (j < k)%nat -> status_code (svc (sent + j)%nat) <> 200) ->
  status_code (svc (sent + k)%nat) = 200 ->
  poll svc req n sent
  = (Ok (text (svc (sent + k)%nat)), concat (replicate (S k) [Sleep 5; Post req])).
Proof.
  revert n sent. induction k as [|k IH]; intros n sent Hlt Hno Hk.
  - destruct n as [|n]; [lia|]. cbn [poll].
    rewrite Nat.add_0_r in *. apply Z.eqb_eq in Hk. rewrite Hk. reflexivity.
  - destruct n as [|n]; [lia|]. cbn [poll].
    pose proof (Hno O ltac:(lia)) as H0. rewrite Nat.add_0_r in H0.
    apply Z.eqb_neq in H0. rewrite H0.
    rewrite (IH n (S sent)).
    + replace (S sent + k)%nat with (sent + S k)%nat by lia. reflexivity.
    + lia.
    + intros j Hj. replace (S sent + j)%nat with (sent + S j)%nat by lia.
      apply Hno. lia.
    + replace (S sent + k)%nat with (sent + S k)%nat by lia. exact Hk.
Qed.
End Polling.

Lemma classify_ready (r : response) : classify r = READY <-> status_code r = 200.
Proof.
  unfold classify. destruct (Z.eqb_spec (status_code r) 200) as [E|E].
  - tauto.
  - destruct (status_code r =? 201); split; intros H; congruence.
Qed.

Lemma classify_pending (r : response) :
  classify r = PENDING <-> status_code r = 201.
Proof.
  unfold classify. destruct (Z.eqb_spec (status_code r) 200) as [E|E].
  - split; intros H; [discriminate | lia].
  - destruct (Z.eqb_spec (status_code r) 201); split; intros H; congruence.
Qed.

Lemma classify_failed (r : response) :
  classify r = FAILED <-> status_code r <> 200 /\ status_code r <> 201.
Proof.
  unfold classify. destruct (Z.eqb_spec (status_code r) 200) as [E|E].
  - split; [discriminate | tauto].
  - destruct (Z.eqb_spec (status_code r) 201); split; intros H;
      try discriminate; tauto.
Qed.

Lemma posts_polling_trace (req : request) (k : nat) :
  posts (polling_trace req k) = S k.
Proof.
  unfold posts, polling_trace. cbn [List.filter is_post length]. f_equal.
  induction k as [|k IH]; [reflexivity|]. cbn. now rewrite IH.
Qed.

Lemma slept_polling_trace (req : request) (k : nat) :
  slept (polling_trace req k) = 5 * Z.of_nat k.
Proof.
  unfold polling_trace. cbn [slept].
  induction k as [|k IH]; [reflexivity|].
  cbn [replicate concat app slept]. rewrite IH. lia.
Qed.

(** The timeout is not any service rejection. *)
Lemma timeout_is_not_rejection (r : response) :
  Exception timeout_message <> Exception (api_error_message r).
Proof. unfold timeout_message, api_error_message. intros H. inversion H. Qed.

(** A rejection of the first submission is raised at once, with the
    service's status and text, and nothing is re-submitted. *)
Lemma get_report_rejected_at_once (svc : service)
    (token login date_from date_to : string) (ids : list Z) :
  classify (svc O) = FAILED ->
  get_report svc token login date_from date_to ids
  = (Raise (Exception (api_error_message (svc O))),
     [Post (build_request token login date_from date_to ids)]).
Proof.
  intros [H200 H201]%classify_failed. unfold get_report.
  apply Z.eqb_neq in H200, H201. now rewrite H200, H201.
Qed.

(** C3. Whatever the service answers: when it says PENDING to the first [k]
    submissions and READY to the next one, with at most 10 re-submissions
    ([k <= 10]), [get_report] returns the text of exactly that answer, having
    slept 5 seconds before every re-submission; when it says PENDING to the
    first submission and to all 10 re-submissions, [get_report] raises the
    timeout exception, whose message no service rejection carries. *)
Theorem get_report_polling (svc : service)
    (token login date_from date_to : string) (ids : list Z) :
  (forall k : nat,
      (k <= 10)%nat ->
      (forall j, (j < k)%nat -> classify (svc j) = PENDING) ->
      classify (svc k) = READY ->
      get_report svc token login date_from date_to ids
      = (Ok (text (svc k)),
         polling_trace (build_request token login date_from date_to ids) k))
  /\ ((forall j, (j <= 10)%nat -> classify (svc j) = PENDING) ->
      get_report svc token login date_from date_to ids
      = (Raise (Exception timeout_message),
         polling_trace (build_request token login date_from date_to ids) 10))
  /\ (forall r, Exception timeout_message <> Exception (api_error_message r)).
Proof.
  split; [|split].
  - intros k Hk Hpending Hready. apply classify_ready in Hready.
    unfold get_report, polling_trace. destruct k as [|k].
    + apply Z.eqb_eq in Hready. now rewrite Hready.
    + pose proof (Hpending O ltac:(lia)) as H0. apply classify_pending in H0.
      rewrite H0. cbn [Z.eqb Pos.eqb].
      rewrite (poll_ready svc _ k 10 1); [reflexivity | lia | | exact Hready].
      intros j Hj. pose proof (Hpending (S j) ltac:(lia)) as Hp.
      apply classify_pending in Hp. cbn [Nat.add]. lia.
  - intros Hpending. unfold get_report, polling_trace.
    pose proof (Hpending O ltac:(lia)) as H0. apply classify_pending in H0.
    rewrite H0. cbn [Z.eqb Pos.eqb].
    rewrite (poll_exhausted svc _ 10 1); [reflexivity|].
    intros j Hj. pose proof (Hpending (S j) ltac:(lia)) as Hp.
    apply classify_pending in Hp. cbn [Nat.add]. lia.
  - apply timeout_is_not_rejection.
Qed.

Lemma get_report_polling_witness :
  get_report (ready_on_fourth "Date	Clicks") "token" "login" "2024-01-01" "2024-01-07" []
  = (Ok "Date	Clicks",
     polling_trace (build_request "token" "login" "2024-01-01" "2024-01-07" []) 3)
  /\ get_report always_pending "token" "login" "2024-01-01" "2024-01-07" []
     = (Raise (Exception timeout_message),
        polling_trace (build_request "token" "login" "2024-01-01" "2024-01-07" []) 10).
Proof.
  split.
  - apply (proj1 (get_report_polling (ready_on_fourth "Date	Clicks")
                    "token" "login" "2024-01-01" "2024-01-07" []) 3%nat).
    + lia.
    + intros j Hj. destruct j as [|[|[|j]]]; [reflexivity..|lia].
    + reflexivity.
  - apply (proj1 (proj2 (get_report_polling always_pending
                           "token" "login" "2024-01-01" "2024-01-07" []))).
    intros j Hj. reflexivity.
Defined.

(** C4, at the failing input: a rejection that answers a re-submission is
    not raised.  The loop tests for status 200 only, so the request is sent
    nine more times and the session ends in the timeout exception. *)
Theorem get_report_rejection_while_polling :
  classify (rejected_while_polling 1%nat) = FAILED
  /\ get_report rejected_while_polling "token" "login" "2024-01-01" "2024-01-07" []
     = (Raise (Exception timeout_message),
        polling_trace (build_request "token" "login" "2024-01-01" "2024-01-07" []) 10)
  /\ posts (polling_trace (build_request "token" "login" "2024-01-01" "2024-01-07" []) 10)
     = 11%nat.
Proof. repeat split. Qed.

End ClientProps.

(** ** RowNormalizer: [parse_tsv] and the coercion of metric fields *)

Module NormalizerProps.
Import Py Direct Scenarios.

Lemma split_cons (sep : ascii) (s : string) :
  exists w ws, split sep s = w :: ws.
Proof.
  induction s as [|c s [w [ws IH]]]; cbn [split]; [eauto|].
  destruct (Ascii.eqb c sep); [eauto|]. rewrite IH. eauto.
Qed.

(** Inserting pairs leaves a key that is none of theirs alone. *)
Lemma foldl_insert_notin (l : list (string * string)) (d : gmap string string)
    (k : string) :
  k ∉ l.*1 ->
  foldl (fun d kv => <[kv.1 := kv.2]> d) d l !! k = d !! k.
Proof.
  revert d. induction l as [|[k0 v0] l IH]; intros d Hk; [reflexivity|].
  cbn [foldl fst snd]. rewrite fmap_cons, not_elem_of_cons in Hk.
  destruct Hk as [Hne Hk]. rewrite IH by exact Hk.
  apply lookup_insert_ne. cbn in Hne. congruence.
Qed.

Lemma zip_fst_subseteq (keys values : list string) (k : string) :
  k ∈ (zip keys values).*1 -> k ∈ keys.
Proof.
  revert values. induction keys as [|k0 keys IH]; intros [|v values] Hk;
    cbn in Hk; try (by apply elem_of_nil in Hk).
  apply elem_of_cons in Hk as [->|Hk]; [left | right; eauto].
Qed.

Lemma foldl_zip_lookup (keys values : list string) (d : gmap string string)
    (j : nat) (k : string) :
  NoDup keys -> keys !! j = Some k ->
  foldl (fun d kv => <[kv.1 := kv.2]> d) d (zip keys values) !! k
  = match values !! j with
    | Some v => Some v
    | None => d !! k
    end.
Proof.
  revert values d j. induction keys as [|k0 keys IH]; intros values d j Hnd Hj;
    [by destruct j|].
  apply NoDup_cons in Hnd as [Hk0 Hnd].
  destruct values as [|v0 values]; [by destruct j|].
  cbn [zip zip_with foldl fst snd]. destruct j as [|j]; cbn in Hj |- *.
  - injection Hj as ->. rewrite foldl_insert_notin.
    + apply lookup_insert_eq.
    + intros Hin. apply Hk0. eapply zip_fst_subseteq, Hin.
  - rewrite (IH values _ j Hnd Hj). destruct (values !! j); [reflexivity|].
    apply lookup_insert_ne. intros ->. apply Hk0.
    eapply list_elem_of_lookup_2, Hj.
Qed.

(** With distinct header names, [dict(zip(headers, values))] maps the
    [j]-th name to the [j]-th value when there is one and has no entry for it
    otherwise. *)
Lemma dict_zip_lookup (keys values : list string) (j : nat) (k : string) :
  NoDup keys -> keys !! j = Some k -> dict_zip keys values !! k = values !! j.
Proof.
  intros Hnd Hj. unfold dict_zip. rewrite (foldl_zip_lookup _ _ _ j) by assumption.
  destruct (values !! j); [reflexivity | apply lookup_empty].
Qed.

(** The row has no entry under a name that is not in the header: values
    beyond the header's length are not kept. *)
Lemma dict_zip_notin (keys values : list string) (k : string) :
  k ∉ keys -> dict_zip keys values !! k = None.
Proof.
  intros Hk. unfold dict_zip. rewrite foldl_insert_notin; [apply lookup_empty|].
  intros Hin. apply Hk. eapply zip_fst_subseteq, Hin.
Qed.

(** C7 fails as stated: a line with three fields under a header of two, and
    a line with one, are turned into rows without any report.  The result
    is a plain list of rows, the surplus field is cut off (the payload
    parses to the very rows of the payload without it) and the short line
    becomes a row that lacks the column. *)
Lemma parse_tsv_malformed_unreported :
  length (split TAB "2024-01-01	5	9") <> length (split TAB "Date	Clicks")
  /\ length (split TAB "2024-01-02") <> length (split TAB "Date	Clicks")
  /\ parse_tsv ragged_payload
     = [ {[ "Date" := "2024-01-01"; "Clicks" := "5" ]}; {[ "Date" := "2024-01-02" ]} ]
  /\ parse_tsv ragged_payload = parse_tsv trimmed_payload.
Proof.
  split; [cbn; lia|]. split; [cbn; lia|]. split; vm_compute; reflexivity.
Qed.

(** C7, amended.  The rows are the lines after the first line of the
    stripped payload, one row per line and in the same order, whatever
    their field counts.  Each row pairs the header names with the fields of
    its line by position: with distinct header names, the [j]-th name is
    bound to the [j]-th field when the line has one and is absent from the
    row otherwise, and nothing is stored under any other name.  No line is
    reported, and no line stops the parsing of the others. *)
Theorem parse_tsv_rows (tsv_data header : string) (data : list string) :
  split LF (strip tsv_data) = header :: data ->
  length (parse_tsv tsv_data) = length data
  /\ (forall i line, data !! i = Some line ->
        parse_tsv tsv_data !! i = Some (dict_zip (split TAB header) (split TAB line)))
  /\ (forall i line j name,
        NoDup (split TAB header) ->
        data !! i = Some line -> split TAB header !! j = Some name ->
        exists r, parse_tsv tsv_data !! i = Some r
                  /\ r !! name = split TAB line !! j)
  /\ (forall i r name,
        parse_tsv tsv_data !! i = Some r -> name ∉ split TAB header ->
        r !! name = None).
Proof.
  intros Hsplit. unfold parse_tsv. rewrite Hsplit.
  split; [apply length_fmap|]. split; [|split].
  - intros i line Hi. now rewrite list_lookup_fmap, Hi.
  - intros i line j name Hnd Hi Hj. eexists. split.
    + now rewrite list_lookup_fmap, Hi.
    + now apply dict_zip_lookup.
  - intros i r name Hi Hname. rewrite list_lookup_fmap in Hi.
    destruct (data !! i) as [line|]; [|discriminate].
    injection Hi as <-. now apply dict_zip_notin.
Qed.

Lemma parse_tsv_rows_witness :
  length (parse_tsv ragged_payload) = 2%nat
  /\ exists r, parse_tsv ragged_payload !! 1%nat = Some r
               /\ r !! "Clicks" = (None : option string).
Proof.
  pose proof (parse_tsv_rows ragged_payload "Date	Clicks"
                ["2024-01-01	5	9"; "2024-01-02"] eq_refl) as (Hlen & _ & Hcol & _).
  split; [exact Hlen|].
  apply (Hcol 1%nat "2024-01-02" 1%nat "Clicks"); [|reflexivity..].
  cbn. apply NoDup_cons. split.
  - intros H. apply elem_of_cons in H as [H|H]; [discriminate H | by apply elem_of_nil in H].
  - apply NoDup_cons. split; [apply not_elem_of_nil | apply NoDup_nil_2].
Defined.

(** *** Coercion of metric fields *)








(** A payload without the Cost column: every row reads cost 0 and the
    report is produced. *)
Example absent_cost_reads_zero :
  sum_float "Cost" (parse_tsv no_cost_payload) = Ok 0%Q
  /\ exists report,
       generate_report_md at_0800 (parse_tsv no_cost_payload)
         "2024-01-01" "2024-01-07" "netashi" = Ok report.
Proof. split; [reflexivity | eexists; vm_compute; reflexivity]. Qed.

End NormalizerProps.

(** ** Aggregator: safe CTR and conservation of totals *)

Module AggregatorProps.
Import Py Direct Scenarios.

(** *** CTR *)














(** *** Conservation of totals *)

Lemma foldl_Zadd (l : list Z) (a : Z) : foldl Z.add a l = a + Zsum l.
Proof.
  unfold Zsum. revert a. induction l as [|x l IH]; intros a; cbn [foldl]; [lia|].
  rewrite (IH (a + x)), (IH (0 + x)). lia.
Qed.

Lemma Zsum_cons (x : Z) (l : list Z) : Zsum (x :: l) = x + Zsum l.
Proof. unfold Zsum at 1. cbn [foldl]. rewrite foldl_Zadd. lia. Qed.

Lemma foldl_Qplus (l : list Q) (a : Q) : (foldl Qplus a l == a + Qsum l)%Q.
Proof.
  unfold Qsum. revert a. induction l as [|x l IH]; intros a; cbn [foldl]; [ring|].
  rewrite (IH (a + x)%Q), (IH (0 + x)%Q). ring.
Qed.

Lemma Qsum_cons (x : Q) (l : list Q) : (Qsum (x :: l) == x + Qsum l)%Q.
Proof. unfold Qsum at 1. cbn [foldl]. rewrite foldl_Qplus. ring. Qed.







End AggregatorProps.

(** ** ReportRenderer: threshold flags and the generation timestamp *)

Module RendererProps.
Import Py Scenarios.



Lemma str_app_assoc (a b c : string) : (a +:+ b) +:+ c = a +:+ (b +:+ c).
Proof.
  induction a as [|x a IH]; [reflexivity|].
  change (String x ((a +:+ b) +:+ c) = String x (a +:+ (b +:+ c))).
  now rewrite IH.
Qed.

(** *** Flags *)




(** *** The generation timestamp *)

(** C2 fails as stated: both generators read the clock and print it in the
    third line of the report, so the same rows rendered a minute apart give
    different texts. *)
Lemma rendering_depends_on_clock :
  Direct.generate_report_md at_0800 (Direct.parse_tsv two_days_payload)
    "2024-01-01" "2024-01-02" "netashi"
  <> Direct.generate_report_md at_0801 (Direct.parse_tsv two_days_payload)
       "2024-01-01" "2024-01-02" "netashi"
  /\ Metrica.generate_report_md at_0800 [jan_1; jan_2] some_sources some_queries
       "2024-01-01" "2024-01-02" "netashi"
     <> Metrica.generate_report_md at_0801 [jan_1; jan_2] some_sources some_queries
          "2024-01-01" "2024-01-02" "netashi".
Proof. split; vm_compute; intros H; discriminate H. Qed.

Lemma direct_report_shape (rows : list Direct.row) (date_from date_to business : string) :
  (exists e, forall now,
      Direct.generate_report_md now rows date_from date_to business = Raise e)
  \/ (exists before after, forall now,
        Direct.generate_report_md now rows date_from date_to business
        = Ok (before +:+ strftime_minutes now +:+ after)).
Proof.
  unfold Direct.generate_report_md.
  destruct (Direct.report_body rows) as [body|e]; [right | left; eauto].
  exists ("# Отчёт Яндекс.Директ: " +:+ business +:+ nl
          +:+ "**Период:** " +:+ date_from +:+ " — " +:+ date_to +:+ nl
          +:+ "**Дата формирования:** "),
         (nl +:+ nl +:+ body).
  intros now. cbn [bind]. unfold Direct.report_header.
  now rewrite !str_app_assoc.
Qed.

Lemma metrica_report_shape (traffic : list Metrica.traffic_row)
    (sources : list Metrica.source_row) (queries : list Metrica.query_row)
    (date_from date_to business : string) :
  exists before after, forall now,
    Metrica.generate_report_md now traffic sources queries date_from date_to business
    = before +:+ strftime_minutes now +:+ after.
Proof.
  exists ("# Отчёт Яндекс.Метрика: " +:+ business +:+ nl
          +:+ "**Период:** " +:+ date_from +:+ " — " +:+ date_to +:+ nl
          +:+ "**Дата формирования:** "),
         (nl +:+ nl +:+ Metrica.report_body traffic sources queries).
  intros now. unfold Metrica.generate_report_md, Metrica.report_header.
  now rewrite !str_app_assoc.
Qed.

(** C2, amended.  Both generators are functions of their arguments and of
    the clock reading printed to the minute: two renderings of the same
    input whose clock readings print alike are byte-identical, and any two
    renderings of the same input differ at most in the printed timestamp
    (the text before it and the text after it do not depend on the clock). *)
Theorem rendering_deterministic_up_to_timestamp :
  (forall now1 now2 rows date_from date_to business,
      strftime_minutes now1 = strftime_minutes now2 ->
      Direct.generate_report_md now1 rows date_from date_to business
      = Direct.generate_report_md now2 rows date_from date_to business)
  /\ (forall now1 now2 traffic sources queries date_from date_to business,
        strftime_minutes now1 = strftime_minutes now2 ->
        Metrica.generate_report_md now1 traffic sources queries date_from date_to business
        = Metrica.generate_report_md now2 traffic sources queries date_from date_to business)
  /\ (forall rows date_from date_to business,
        (exists e, forall now,
            Direct.generate_report_md now rows date_from date_to business = Raise e)
        \/ (exists before after, forall now,
              Direct.generate_report_md now rows date_from date_to business
              = Ok (before +:+ strftime_minutes now +:+ after)))
  /\ (forall traffic sources queries date_from date_to business,
        exists before after, forall now,
          Metrica.generate_report_md now traffic sources queries date_from date_to business
          = before +:+ strftime_minutes now +:+ after).
Proof.
  split; [|split; [|split]].
  - intros now1 now2 rows date_from date_to business Hsame.
    destruct (direct_report_shape rows date_from date_to business)
      as [[e He]|(before & after & Hshape)].
    + now rewrite !He.
    + now rewrite !Hshape, Hsame.
  - intros now1 now2 traffic sources queries date_from date_to business Hsame.
    destruct (metrica_report_shape traffic sources queries date_from date_to business)
      as (before & after & Hshape).
    now rewrite !Hshape, Hsame.
  - apply direct_report_shape.
  - apply metrica_report_shape.
Qed.

Lemma rendering_deterministic_up_to_timestamp_witness :
  Direct.generate_report_md at_0800 (Direct.parse_tsv two_days_payload)
    "2024-01-01" "2024-01-02" "netashi"
  = Direct.generate_report_md at_0800_later (Direct.parse_tsv two_days_payload)
      "2024-01-01" "2024-01-02" "netashi"
  /\ Metrica.generate_report_md at_0800 [jan_1; jan_2] some_sources some_queries
       "2024-01-01" "2024-01-02" "netashi"
     = Metrica.generate_report_md at_0800_later [jan_1; jan_2] some_sources some_queries
         "2024-01-01" "2024-01-02" "netashi".
Proof.
  split.
  - apply (proj1 rendering_deterministic_up_to_timestamp). reflexivity.
  - apply (proj1 (proj2 rendering_deterministic_up_to_timestamp)). reflexivity.
Defined.

End RendererProps.

(** ** TimeSeriesStore: [append_to_csv] *)

Module StoreProps.
Import Py Metrica Scenarios.

(** *** Reading the dates back *)

Lemma foldl_some_notin (l : list (string * string)) (d : gmap string (option string))
    (k : string) :
  k ∉ l.*1 ->
  foldl (fun d kv => <[kv.1 := Some kv.2]> d) d l !! k = d !! k.
Proof.
  revert d. induction l as [|[k0 v0] l IH]; intros d Hk; [reflexivity|].
  cbn [foldl fst snd]. rewrite fmap_cons, not_elem_of_cons in Hk.
  destruct Hk as [Hne Hk]. rewrite IH by exact Hk.
  apply lookup_insert_ne. cbn in Hne. congruence.
Qed.

Lemma foldl_none_notin (l : list string) (d : gmap string (option string)) (k : string) :
  k ∉ l ->
  foldl (fun d key => <[key := None]> d) d l !! k = d !! k.
Proof.
  revert d. induction l as [|k0 l IH]; intros d Hk; [reflexivity|].
  cbn [foldl]. rewrite not_elem_of_cons in Hk. destruct Hk as [Hne Hk].
  rewrite IH by exact Hk. apply lookup_insert_ne. congruence.
Qed.

Lemma date_column_once : date_column ∉ tail fieldnames.
Proof.
  intros H. cbn in H.
  repeat (apply elem_of_cons in H as [H|H]; [discriminate H|]).
  by apply elem_of_nil in H.
Qed.

(** Under the store's header, the date of a line is its first field. *)
Lemma reader_dict_date (f : string) (r : csv_row) :
  reader_dict fieldnames (f :: r) !! date_column = Some (Some f).
Proof.
  unfold reader_dict. rewrite foldl_none_notin.
  - change (zip fieldnames (f :: r)) with ((date_column, f) :: zip (tail fieldnames) r).
    cbn [foldl fst snd]. rewrite foldl_some_notin; [apply lookup_insert_eq|].
    intros Hin. apply date_column_once.
    eapply NormalizerProps.zip_fst_subseteq, Hin.
  - intros Hin. apply date_column_once.
    cbn [length]. change fieldnames with (date_column :: tail fieldnames) in Hin.
    cbn [drop] in Hin. eapply subseteq_drop, Hin.
Qed.

(** The dates found in a file with the store's header are the first fields
    of its non-empty data lines. *)
Lemma existing_dates_stored (data : list csv_row) (d : string) :
  Some d ∈ existing_dates (fieldnames :: data) <-> exists r, r ∈ data /\ head r = Some d.
Proof.
  unfold existing_dates, dict_reader.
  rewrite elem_of_list_to_set, list_elem_of_fmap. split.
  - intros (m & Hd & Hm). apply list_elem_of_fmap in Hm as (r & -> & Hr).
    apply list_elem_of_filter in Hr as [Hne Hr].
    destruct r as [|f r]; [congruence|].
    rewrite reader_dict_date in Hd. cbn in Hd. injection Hd as ->. eauto.
  - intros (r & Hr & Hhead). destruct r as [|f r]; [discriminate|].
    cbn in Hhead. injection Hhead as ->.
    exists (reader_dict fieldnames (d :: r)). split.
    + now rewrite reader_dict_date.
    + apply list_elem_of_fmap_2, list_elem_of_filter. split; [congruence | exact Hr].
Qed.

(** *** What one call does to the file *)

Lemma append_to_csv_file (traffic : list traffic_row) (csv_name : string) (w : world) :
  file (append_to_csv traffic csv_name w).2
  = match new_rows (known_dates w) traffic with
    | [] => file w
    | rows => Some (default [fieldnames] (file w) ++ (csv_record <$> rows))
    end.
Proof.
  unfold append_to_csv, known_dates.
  destruct (file w) as [lines|]; destruct (new_rows _ traffic); reflexivity.
Qed.

Lemma new_rows_empty_set (traffic : list traffic_row) : new_rows ∅ traffic = traffic.
Proof.
  unfold new_rows. induction traffic as [|r traffic IH]; [reflexivity|].
  rewrite filter_cons, IH.
  destruct (decide (Some (date r) ∉ (∅ : gset (option string)))) as [_|n];
    [reflexivity|]. exfalso. apply n, not_elem_of_empty.
Qed.

Lemma append_to_csv_existing (traffic : list traffic_row) (csv_name : string) (w : world)
    (lines : list csv_row) :
  file w = Some lines ->
  file (append_to_csv traffic csv_name w).2
  = Some (lines ++ (csv_record <$> new_rows (existing_dates lines) traffic)).
Proof.
  intros Hfile. rewrite append_to_csv_file. unfold known_dates. rewrite Hfile.
  destruct (new_rows _ traffic); [now rewrite app_nil_r | reflexivity].
Qed.

Lemma append_to_csv_absent (traffic : list traffic_row) (csv_name : string) (w : world) :
  file w = None ->
  file (append_to_csv traffic csv_name w).2
  = match traffic with
    | [] => None
    | _ => Some (fieldnames :: (csv_record <$> traffic))
    end.
Proof.
  intros Hfile. rewrite append_to_csv_file. unfold known_dates. rewrite Hfile.
  rewrite new_rows_empty_set. destruct traffic; reflexivity.
Qed.

(** The header stays in place. *)
Lemma append_to_csv_stored (traffic : list traffic_row) (csv_name : string) (w : world) :
  stored w -> stored (append_to_csv traffic csv_name w).2.
Proof.
  unfold stored. intros [Hnone|[data Hsome]].
  - rewrite (append_to_csv_absent _ _ _ Hnone). destruct traffic; eauto.
  - rewrite (append_to_csv_existing _ _ _ _ Hsome). right. eexists. reflexivity.
Qed.

Lemma append_to_csv_data_lines (traffic : list traffic_row) (csv_name : string) (w : world) :
  stored w ->
  data_lines (append_to_csv traffic csv_name w).2
  = data_lines w ++ (csv_record <$> new_rows (known_dates w) traffic).
Proof.
  unfold stored, data_lines, known_dates. intros [Hnone|[data Hsome]].
  - rewrite (append_to_csv_absent _ _ _ Hnone), Hnone, new_rows_empty_set.
    destruct traffic; reflexivity.
  - rewrite (append_to_csv_existing _ _ _ _ Hsome), Hsome. reflexivity.
Qed.

Lemma known_dates_stored (w : world) (d : string) :
  stored w ->
  Some d ∈ known_dates w <-> exists r, r ∈ data_lines w /\ head r = Some d.
Proof.
  unfold stored, known_dates, data_lines. intros [Hnone|[data Hsome]].
  - rewrite Hnone. split; [intros Hin; by apply elem_of_empty in Hin|].
    intros (r & Hr & _). by apply elem_of_nil in Hr.
  - rewrite Hsome. apply existing_dates_stored.
Qed.

Lemma new_rows_spec (existing : gset (option string)) (traffic : list traffic_row)
    (r : traffic_row) :
  r ∈ new_rows existing traffic <-> (Some (date r) ∉ existing) /\ (r ∈ traffic).
Proof. unfold new_rows. now rewrite list_elem_of_filter. Qed.

(** After a run, the dates of its rows are all known. *)
Lemma known_dates_after (traffic : list traffic_row) (csv_name : string) (w : world)
    (d : string) :
  stored w ->
  Some d ∈ known_dates (append_to_csv traffic csv_name w).2
  <-> Some d ∈ known_dates w \/ exists r, r ∈ traffic /\ date r = d.
Proof.
  intros Hst.
  rewrite (known_dates_stored _ d (append_to_csv_stored traffic csv_name w Hst)).
  rewrite (append_to_csv_data_lines _ _ _ Hst), (known_dates_stored w d Hst). split.
  - intros (row & Hrow & Hhead). apply elem_of_app in Hrow as [Hrow|Hrow]; [eauto|].
    apply list_elem_of_fmap in Hrow as (r & -> & Hr). apply new_rows_spec in Hr as [_ Hr].
    cbn in Hhead. injection Hhead as <-. eauto.
  - intros [(row & Hrow & Hhead)|(r & Hr & <-)].
    + exists row. split; [apply elem_of_app; now left | exact Hhead].
    + destruct (decide (Some (date r) ∈ known_dates w)) as [Hin|Hout].
      * apply (known_dates_stored w _ Hst) in Hin as (row & Hrow & Hhead).
        exists row. split; [apply elem_of_app; now left | exact Hhead].
      * exists (csv_record r). split; [|reflexivity].
        apply elem_of_app. right. apply list_elem_of_fmap_2, new_rows_spec. now split.
Qed.

Lemma filter_none {A : Type} (P : A -> Prop) `{forall x, Decision (P x)} (l : list A) :
  (forall x, x ∈ l -> ~ P x) -> filter P l = [].
Proof.
  induction l as [|x l IH]; intros Hl; [reflexivity|].
  rewrite filter_cons. destruct (decide (P x)) as [Hx|_].
  - exfalso. apply (Hl x); [left | exact Hx].
  - apply IH. intros y Hy. apply Hl. now right.
Qed.

Lemma filter_csv_records (d : string) (l : list traffic_row) :
  filter (fun row => head row = Some d) (csv_record <$> l)
  = csv_record <$> filter (fun r => date r = d) l.
Proof.
  induction l as [|r l IH]; [reflexivity|].
  rewrite fmap_cons, !filter_cons, IH. cbn [csv_record head].
  destruct (decide (Some (date r) = Some d)) as [E|E], (decide (date r = d)) as [E'|E'];
    try reflexivity; congruence.
Qed.

(** A run whose dates are all known leaves the file as it is. *)
Lemma append_to_csv_known (traffic : list traffic_row) (csv_name : string) (w : world) :
  (forall r, r ∈ traffic -> Some (date r) ∈ known_dates w) ->
  file (append_to_csv traffic csv_name w).2 = file w.
Proof.
  intros Hknown. rewrite append_to_csv_file.
  replace (new_rows (known_dates w) traffic) with (@nil traffic_row); [reflexivity|].
  symmetry. apply filter_none. intros r Hr Hnew. apply Hnew, Hknown, Hr.
Qed.

(** Re-running for dates a previous run has seen changes nothing. *)
Lemma append_to_csv_again (traffic traffic' : list traffic_row) (csv_name csv_name' : string)
    (w : world) :
  stored w ->
  (forall r', r' ∈ traffic' -> exists r, r ∈ traffic /\ date r' = date r) ->
  file (append_to_csv traffic' csv_name' (append_to_csv traffic csv_name w).2).2
  = file (append_to_csv traffic csv_name w).2.
Proof.
  intros Hst Hsame. apply append_to_csv_known. intros r' Hr'.
  destruct (Hsame r' Hr') as (r & Hr & ->).
  apply (known_dates_after _ _ _ _ Hst). right. eauto.
Qed.

(** The one record of a new date survives every later run as the only one
    of that date. *)
Lemma append_to_csv_one_record (traffic traffic' : list traffic_row)
    (csv_name csv_name' : string) (w : world) (d : string) (r : traffic_row) :
  stored w ->
  Some d ∉ known_dates w ->
  filter (fun x => date x = d) traffic = [r] ->
  records_for d (append_to_csv traffic' csv_name' (append_to_csv traffic csv_name w).2).2
  = [csv_record r].
Proof.
  intros Hst Hnew Hone. unfold records_for.
  pose proof (append_to_csv_stored traffic csv_name w Hst) as Hst'.
  rewrite (append_to_csv_data_lines _ _ _ Hst'), (append_to_csv_data_lines _ _ _ Hst).
  rewrite !filter_app, !filter_csv_records.
  assert (Hr : r ∈ traffic /\ date r = d).
  { assert (Hin : r ∈ filter (fun x => date x = d) traffic) by (rewrite Hone; left).
    apply list_elem_of_filter in Hin. tauto. }
  rewrite (filter_none _ (data_lines w)).
  2:{ intros row Hrow Hhead. apply Hnew, (known_dates_stored w d Hst). eauto. }
  rewrite (filter_none _ (new_rows _ traffic')).
  2:{ intros x Hx Hd. apply new_rows_spec in Hx as [Hx _]. apply Hx.
      apply (known_dates_after _ _ _ _ Hst). right. exists r. split; [tauto|].
      destruct Hr as [_ Hr]. congruence. }
  cbn [app fmap list_fmap]. rewrite app_nil_r.
  change [csv_record r] with (csv_record <$> [r]). f_equal.
  unfold new_rows. rewrite list_filter_filter, <- Hone.
  apply list_filter_iff. intros x. split; [tauto|]. intros Hx. split; [exact Hx|].
  now rewrite Hx.
Qed.

(** C1. Appending to the cumulative CSV is an idempotent merge that never
    overwrites.  For any existing file, the new content is the old lines, in
    place and in order, followed by the records of exactly those incoming
    rows whose date the file does not already hold, in incoming order; an
    absent file is created with the header.  On a store (no file yet, or a
    file under the store's header) a second run for the same dates, even
    with other values, leaves the file as the first run left it, and a date
    recorded once by the first run has that one record after any later run. *)
Theorem append_to_csv_idempotent_merge (traffic : list traffic_row) (csv_name : string)
    (w : world) :
  (forall lines,
      file w = Some lines ->
      file (append_to_csv traffic csv_name w).2
      = Some (lines ++ (csv_record <$>
                          filter (fun r => Some (date r) ∉ existing_dates lines) traffic)))
  /\ (file w = None ->
      file (append_to_csv traffic csv_name w).2
      = match traffic with
        | [] => None
        | _ => Some (fieldnames :: (csv_record <$> traffic))
        end)
  /\ (stored w ->
      stored (append_to_csv traffic csv_name w).2
      /\ (forall traffic' csv_name',
            (forall r', r' ∈ traffic' -> exists r, r ∈ traffic /\ date r' = date r) ->
            file (append_to_csv traffic' csv_name' (append_to_csv traffic csv_name w).2).2
            = file (append_to_csv traffic csv_name w).2)
      /\ (forall d r traffic' csv_name',
            Some d ∉ known_dates w ->
            filter (fun x => date x = d) traffic = [r] ->
            records_for d
              (append_to_csv traffic' csv_name' (append_to_csv traffic csv_name w).2).2
            = [csv_record r])).
Proof.
  split; [|split].
  - intros lines Hfile. apply (append_to_csv_existing _ _ _ _ Hfile).
  - apply append_to_csv_absent.
  - intros Hst. split; [now apply append_to_csv_stored|]. split.
    + intros traffic' csv_name' Hsame. now apply append_to_csv_again.
    + intros d r traffic' csv_name' Hnew Hone. now apply append_to_csv_one_record.
Qed.

(** The first day is in the store; a later run brings it again, with other
    values, together with the second day. *)
Lemma append_to_csv_idempotent_merge_witness :
  file (append_to_csv [jan_1_recomputed; jan_2] "metrica.csv" store_with_jan_1).2
  = Some [fieldnames; csv_record jan_1; csv_record jan_2]
  /\ file (append_to_csv [jan_1; jan_2] "metrica.csv"
             (append_to_csv [jan_1_recomputed; jan_2] "metrica.csv" store_with_jan_1).2).2
     = file (append_to_csv [jan_1_recomputed; jan_2] "metrica.csv" store_with_jan_1).2
  /\ records_for "2024-01-02"
       (append_to_csv [jan_1; jan_2] "metrica.csv"
          (append_to_csv [jan_1_recomputed; jan_2] "metrica.csv" store_with_jan_1).2).2
     = [csv_record jan_2].
Proof.
  pose proof (append_to_csv_idempotent_merge [jan_1_recomputed; jan_2] "metrica.csv"
                store_with_jan_1) as (Hsome & _ & Hstored).
  assert (Hst : stored store_with_jan_1) by (right; eexists; reflexivity).
  destruct (Hstored Hst) as (_ & Hagain & Hone).
  split; [|split].
  - rewrite (Hsome _ eq_refl). vm_compute. reflexivity.
  - apply Hagain. intros r' Hr'.
    apply elem_of_cons in Hr' as [->|Hr'].
    + exists jan_1_recomputed. split; [left | reflexivity].
    + apply elem_of_cons in Hr' as [->|Hr']; [|by apply elem_of_nil in Hr'].
      exists jan_2. split; [right; left | reflexivity].
  - apply Hone.
    + vm_compute. intros H. discriminate H.
    + vm_compute. reflexivity.
Defined.

(** *** What one call tells its caller *)

(** C9 fails as stated: the call appends one record and hands [None] back,
    not the count 1. *)
Lemma append_to_csv_returns_none :
  new_rows (known_dates store_with_jan_1) [jan_1_recomputed; jan_2] = [jan_2]
  /\ (append_to_csv [jan_1_recomputed; jan_2] "metrica.csv" store_with_jan_1).1 = PyNone
  /\ (append_to_csv [jan_1_recomputed; jan_2] "metrica.csv" store_with_jan_1).1 <> PyInt 1.
Proof. repeat split; vm_compute; [reflexivity.. | discriminate]. Qed.

(** C9, amended.  [append_to_csv] returns [None] whatever it did.  The number
    of records it appended, the incoming rows whose date was not in the
    file, goes to the console: the line [CSV: +N ...] followed by the file
    name when [N > 0], and the line saying there is no new data when
    [N = 0]. *)
Theorem append_to_csv_reports_count (traffic : list traffic_row) (csv_name : string)
    (w : world) :
  (append_to_csv traffic csv_name w).1 = PyNone
  /\ console (append_to_csv traffic csv_name w).2
     = console w ++
       [ match length (new_rows (known_dates w) traffic) with
         | O => "   CSV: нет новых данных"
         | n => "   CSV: +" +:+ str_int (Z.of_nat n) +:+ " строк → " +:+ csv_name
         end ]
  /\ (forall lines,
        file w = Some lines ->
        exists appended,
          file (append_to_csv traffic csv_name w).2 = Some (lines ++ appended)
          /\ length appended = length (new_rows (known_dates w) traffic)).
Proof.
  split; [|split].
  - unfold append_to_csv. destruct (new_rows _ traffic); reflexivity.
  - unfold append_to_csv, known_dates. destruct (new_rows _ traffic); reflexivity.
  - intros lines Hfile. eexists. split; [apply (append_to_csv_existing _ _ _ _ Hfile)|].
    unfold known_dates. rewrite Hfile. apply length_fmap.
Qed.

Lemma append_to_csv_reports_count_witness :
  exists appended,
    file (append_to_csv [jan_1_recomputed; jan_2] "metrica.csv" store_with_jan_1).2
    = Some ([fieldnames; csv_record jan_1] ++ appended)
    /\ length appended
       = length (new_rows (known_dates store_with_jan_1) [jan_1_recomputed; jan_2]).
Proof.
  apply (proj2 (proj2 (append_to_csv_reports_count [jan_1_recomputed; jan_2]
                         "metrica.csv" store_with_jan_1))).
  reflexivity.
Defined.

(** *** Around the store's invariant *)

(** The first run creates the file, header first. *)
Example append_to_csv_creates_file :
  file (append_to_csv [jan_1; jan_2] "metrica.csv" no_store).2
  = Some [fieldnames; csv_record jan_1; csv_record jan_2]
  /\ stored (append_to_csv [jan_1; jan_2] "metrica.csv" no_store).2.
Proof. split; [reflexivity | right; eexists; reflexivity]. Qed.

(** The header is what makes the dates readable.  A file that exists
    without it is outside the invariant [stored]: no header is written into
    an existing file, the first record is then read as the header, and a
    second run appends the same day again. *)
Remark headerless_file_repeats_dates :
  ~ stored empty_file
  /\ file (append_to_csv [jan_1] "metrica.csv"
             (append_to_csv [jan_1] "metrica.csv" empty_file).2).2
     = Some [csv_record jan_1; csv_record jan_1].
Proof.
  split.
  - intros [H|[data H]]; discriminate H.
  - vm_compute. reflexivity.
Qed.

End StoreProps.

(** ** [get_report]: every outcome, and what a call costs *)

Module PollingProps.
Import Py Direct Scenarios.

(** Either one of the next [n] answers has status 200, and there is a first
    one, or none has. *)
Lemma first_ready (svc : service) (n sent : nat) :
  (exists k, (k < n)%nat
             /\ (forall j, (j < k)%nat -> status_code (svc (sent + j)%nat) <> 200)
             /\ status_code (svc (sent + k)%nat) = 200)
  \/ (forall j, (j < n)%nat -> status_code (svc (sent + j)%nat) <> 200).
Proof.
  induction n as [|n [(k & Hk & Hbefore & Hat)|Hnone]].
  - right. intros j Hj. lia.
  - left. exists k. repeat split; [lia | exact Hbefore | exact Hat].
  - destruct (Z.eq_dec (status_code (svc (sent + n)%nat)) 200) as [E|E].
    + left. exists n. repeat split; [lia | exact Hnone | exact E].
    + right. intros j Hj. destruct (Nat.eq_dec j n) as [->|Hne]; [exact E|].
      apply Hnone. lia.
Qed.

Lemma polling_trace_events (req : request) (k : nat) :
  Forall (fun e => e = Post req \/ e = Sleep 5) (polling_trace req k).
Proof.
  unfold polling_trace. apply Forall_cons. split; [now left|].
  induction k as [|k IH]; cbn [replicate concat app]; [apply Forall_nil_2|].
  apply Forall_cons. split; [now right|]. apply Forall_cons. split; [now left | exact IH].
Qed.

Lemma get_report_cases (svc : service) (token login date_from date_to : string)
    (ids : list Z) :
  (exists k, (k <= 10)%nat
             /\ status_code (svc k) = 200
             /\ (forall j, (j < k)%nat -> status_code (svc j) <> 200)
             /\ ((0 < k)%nat -> status_code (svc O) = 201)
             /\ get_report svc token login date_from date_to ids
                = (Ok (text (svc k)),
                   polling_trace (build_request token login date_from date_to ids) k))
  \/ (status_code (svc O) = 201
      /\ (forall j, (j <= 10)%nat -> status_code (svc j) <> 200)
      /\ get_report svc token login date_from date_to ids
         = (Raise (Exception timeout_message),
            polling_trace (build_request token login date_from date_to ids) 10))
  \/ (status_code (svc O) <> 200 /\ status_code (svc O) <> 201
      /\ get_report svc token login date_from date_to ids
         = (Raise (Exception (api_error_message (svc O))),
            polling_trace (build_request token login date_from date_to ids) 0)).
Proof.
  unfold get_report, polling_trace.
  destruct (Z.eqb_spec (status_code (svc O)) 200) as [E200|N200].
  - left. exists O.
    split_and!; [lia | exact E200 | intros j Hj; lia | intros H; lia | reflexivity].
  - destruct (Z.eqb_spec (status_code (svc O)) 201) as [E201|N201].
    + destruct (first_ready svc 10 1) as [(k & Hk & Hbefore & Hat)|Hnone].
      * left. exists (S k). split_and!; [lia | exact Hat | | intros _; exact E201 |].
        -- intros j Hj. destruct j as [|j]; [exact N200|]. apply (Hbefore j). lia.
        -- rewrite (ClientProps.poll_ready svc _ k 10 1 Hk Hbefore Hat). reflexivity.
      * right. left. split_and!; [exact E201 | |].
        -- intros j Hj. destruct j as [|j]; [exact N200|]. apply (Hnone j). lia.
        -- rewrite (ClientProps.poll_exhausted svc _ 10 1 Hnone). reflexivity.
    + right. right. split_and!; [exact N200 | exact N201 | reflexivity].
Qed.

(** X1. The three ways a call can end.  It returns only the text of an
    answer with status 200, the first such answer and one of the first 11; it
    raises the timeout only when the first answer had status 201 and none of
    the 10 answers to the re-submissions had status 200; it raises the API
    error only for a first answer that is neither 200 nor 201, after that
    single request. *)
Theorem get_report_outcomes (svc : service) (token login date_from date_to : string)
    (ids : list Z) :
  (exists k, (k <= 10)%nat
             /\ status_code (svc k) = 200
             /\ (forall j, (j < k)%nat -> status_code (svc j) <> 200)
             /\ ((0 < k)%nat -> status_code (svc O) = 201)
             /\ get_report svc token login date_from date_to ids
                = (Ok (text (svc k)),
                   polling_trace (build_request token login date_from date_to ids) k))
  \/ (status_code (svc O) = 201
      /\ (forall j, (j <= 10)%nat -> status_code (svc j) <> 200)
      /\ get_report svc token login date_from date_to ids
         = (Raise (Exception timeout_message),
            polling_trace (build_request token login date_from date_to ids) 10))
  \/ (status_code (svc O) <> 200 /\ status_code (svc O) <> 201
      /\ get_report svc token login date_from date_to ids
         = (Raise (Exception (api_error_message (svc O))),
            polling_trace (build_request token login date_from date_to ids) 0)).
Proof. apply get_report_cases. Qed.

(** X2. Whatever the service answers, one call sends at most 11 requests, all
    of them the same request, sleeps 5 seconds before each request but the
    first, 50 seconds at most in all, and does nothing else. *)
Theorem get_report_bounded (svc : service) (token login date_from date_to : string)
    (ids : list Z) :
  (posts (get_report svc token login date_from date_to ids).2 <= 11)%nat
  /\ slept (get_report svc token login date_from date_to ids).2
     = 5 * (Z.of_nat (posts (get_report svc token login date_from date_to ids).2) - 1)
  /\ slept (get_report svc token login date_from date_to ids).2 <= 50
  /\ Forall (fun e => e = Post (build_request token login date_from date_to ids)
                      \/ e = Sleep 5)
       (get_report svc token login date_from date_to ids).2.
Proof.
  assert (Hk : exists k, (k <= 10)%nat
                 /\ (get_report svc token login date_from date_to ids).2
                    = polling_trace (build_request token login date_from date_to ids) k).
  { destruct (get_report_cases svc token login date_from date_to ids)
      as [(k & Hk & _ & _ & _ & ->)|[(_ & _ & ->)|(_ & _ & ->)]].
    - exists k. split; [exact Hk | reflexivity].
    - exists 10%nat. split; [lia | reflexivity].
    - exists O. split; [lia | reflexivity]. }
  destruct Hk as (k & Hk & ->).
  rewrite ClientProps.posts_polling_trace, ClientProps.slept_polling_trace.
  split_and!; [lia | lia | lia | apply polling_trace_events].
Qed.

End PollingProps.

(** ** [load_credentials] *)

Module CredentialsProps.
Import Py Credentials Scenarios.

Lemma read_line_entry (env : gmap string string) (line : string) :
  read_line env line
  = match entry line with
    | Some (k, v) => <[k := v]> env
    | None => env
    end.
Proof.
  unfold read_line, entry.
  destruct (contains "=" line && negb (startswith "#" line))%bool; [|reflexivity].
  destruct (split_first "=" line) as [[k v]|]; reflexivity.
Qed.

(** Lines that do not define [k] leave its binding alone. *)
Lemma foldl_read_line_other (lines : list string) (env : gmap string string) (k : string) :
  (forall l v, l ∈ lines -> entry l <> Some (k, v)) ->
  foldl read_line env lines !! k = env !! k.
Proof.
  revert env. induction lines as [|line lines IH]; intros env Hnone; [reflexivity|].
  cbn [foldl]. rewrite IH.
  - rewrite read_line_entry. destruct (entry line) as [[k' v']|] eqn:E; [|reflexivity].
    apply lookup_insert_ne. intros ->. apply (Hnone line v'); [left | exact E].
  - intros l v Hl. apply Hnone. now right.
Qed.

Lemma split_first_app (sep : ascii) (k v : string) :
  contains sep k = false -> split_first sep (k +:+ String sep v) = Some (k, v).
Proof.
  induction k as [|c k IH]; intros Hk.
  - change (EmptyString +:+ String sep v) with (String sep v).
    cbn [split_first]. now rewrite Ascii.eqb_refl.
  - cbn in Hk. apply orb_false_iff in Hk as [Hc Hk].
    change (String c k +:+ String sep v) with (String c (k +:+ String sep v)).
    cbn [split_first]. rewrite Hc, (IH Hk). reflexivity.
Qed.

Lemma contains_app (sep : ascii) (k v : string) :
  contains sep (k +:+ String sep v) = true.
Proof.
  induction k as [|c k IH].
  - change (EmptyString +:+ String sep v) with (String sep v).
    cbn [contains]. now rewrite Ascii.eqb_refl.
  - change (String c k +:+ String sep v) with (String c (k +:+ String sep v)).
    cbn [contains]. rewrite IH. apply orb_true_r.
Qed.

(** X3. What a line contributes to the dictionary.  A line [key=value] that
    does not start with [#] binds the stripped key to the stripped value, cut
    at the first [=], so the value may itself contain [=]; a line starting
    with [#] and a line without [=] change nothing. *)
Theorem read_line_cases (env : gmap string string) :
  (forall k v : string,
      contains "=" k = false ->
      startswith "#" (k +:+ String "=" v) = false ->
      read_line env (k +:+ String "=" v) = <[strip k := strip v]> env
      /\ entry (k +:+ String "=" v) = Some (strip k, strip v))
  /\ (forall line,
        startswith "#" line = true \/ contains "=" line = false ->
        read_line env line = env /\ entry line = None).
Proof.
  split.
  - intros k v Hk Hhash. unfold read_line, entry.
    rewrite contains_app, Hhash, (split_first_app _ _ _ Hk). split; reflexivity.
  - intros line [Hhash|Hno]; unfold read_line, entry.
    + rewrite Hhash, andb_false_r. split; reflexivity.
    + rewrite Hno. split; reflexivity.
Qed.

Lemma read_line_cases_witness :
  read_line ∅ ("YANDEX_DIRECT_TOKEN " +:+ String "=" " y0_AgAAAA== ")
  = <[ "YANDEX_DIRECT_TOKEN" := "y0_AgAAAA==" ]> ∅
  /\ read_line ∅ "# YANDEX_DIRECT_TOKEN=old" = ∅.
Proof.
  split.
  - apply (proj1 (read_line_cases ∅) "YANDEX_DIRECT_TOKEN " " y0_AgAAAA== "); reflexivity.
  - apply (proj2 (read_line_cases ∅) "# YANDEX_DIRECT_TOKEN=old"). left. reflexivity.
Defined.

(** X4. The dictionary [load_credentials] returns.  Without a credentials
    file it is empty.  With one, a key is bound to the value of the last line
    that defines it, and a key no line defines is not bound. *)
Theorem load_credentials_last_wins (cred_files : string -> option string)
    (business : string) :
  (cred_files business = None -> load_credentials cred_files business = ∅)
  /\ (forall text before line after k v,
        cred_files business = Some text ->
        splitlines text = before ++ line :: after ->
        entry line = Some (k, v) ->
        (forall l v', l ∈ after -> entry l <> Some (k, v')) ->
        load_credentials cred_files business !! k = Some v)
  /\ (forall text k,
        cred_files business = Some text ->
        (forall l v, l ∈ splitlines text -> entry l <> Some (k, v)) ->
        load_credentials cred_files business !! k = None).
Proof.
  unfold load_credentials. split_and!.
  - intros ->. reflexivity.
  - intros text before line after k v -> Hlines Hline Hafter.
    rewrite Hlines, foldl_app. cbn [foldl].
    rewrite (foldl_read_line_other after _ k Hafter), read_line_entry, Hline.
    apply lookup_insert_eq.
  - intros text k -> Hnone.
    rewrite (foldl_read_line_other _ _ k Hnone). apply lookup_empty.
Qed.

Lemma load_credentials_last_wins_witness :
  load_credentials credential_files "netashi" !! "YANDEX_DIRECT_TOKEN" = Some "y0_AgAAAA=="
  /\ load_credentials credential_files "netashi" !! "YANDEX_METRICA_COUNTER" = None
  /\ load_credentials credential_files "kafe" = ∅.
Proof.
  pose proof (load_credentials_last_wins credential_files "netashi") as (_ & Hlast & Hnone).
  split_and!.
  - apply (Hlast netashi_credentials
             ["# Yandex"; "YANDEX_DIRECT_TOKEN = old"; "YANDEX_DIRECT_LOGIN=netashi";
              "just a note"]
             "YANDEX_DIRECT_TOKEN=y0_AgAAAA==" []); [reflexivity..|].
    intros l v' Hl. by apply elem_of_nil in Hl.
  - apply (Hnone netashi_credentials); [reflexivity|].
    intros l v Hl. vm_compute in Hl.
    repeat (apply elem_of_cons in Hl as [->|Hl]; [vm_compute; discriminate|]).
    by apply elem_of_nil in Hl.
  - apply (proj1 (load_credentials_last_wins credential_files "kafe")). reflexivity.
Defined.

End CredentialsProps.

(** ** Order of the tables: [sorted(..., reverse=True)] and [sorted(keys)] *)

Module OrderProps.
Import Py Tables MetricaApi Scenarios.

Section Descending.
Context {A : Type} (key : A -> Z).

Lemma insert_desc_perm (x : A) (l : list A) : insert_desc key x l ≡ₚ x :: l.
Proof.
  induction l as [|y l IH]; cbn [insert_desc]; [reflexivity|].
  destruct (key x <? key y); [|reflexivity].
  rewrite IH. apply Permutation_swap.
Qed.

Lemma sorted_desc_perm (l : list A) : sorted_desc key l ≡ₚ l.
Proof.
  induction l as [|x l IH]; [reflexivity|].
  cbn [sorted_desc foldr]. rewrite insert_desc_perm. now apply Permutation_skip.
Qed.

Lemma insert_desc_descending (x : A) (l : list A) :
  descending key l -> descending key (insert_desc key x l).
Proof.
  unfold descending. induction 1 as [|y l Hl IH Hy]; cbn [insert_desc].
  - apply SSorted_cons; [apply SSorted_nil | apply List.Forall_nil].
  - destruct (Z.ltb_spec (key x) (key y)) as [Hlt|Hge].
    + apply SSorted_cons; [exact IH|].
      apply Forall_forall. intros z Hz.
      rewrite (insert_desc_perm x l) in Hz. apply elem_of_cons in Hz as [->|Hz]; [lia|].
      revert z Hz. now apply Forall_forall.
    + apply SSorted_cons; [now apply SSorted_cons|].
      apply List.Forall_cons; [exact Hge|].
      apply Forall_forall. intros z Hz.
      assert (key z <= key y) by (revert z Hz; now apply Forall_forall). lia.
Qed.

Lemma sorted_desc_descending (l : list A) : descending key (sorted_desc key l).
Proof.
  induction l as [|x l IH]; [apply SSorted_nil|].
  cbn [sorted_desc foldr]. now apply insert_desc_descending.
Qed.

(** Insertion passes only elements with a strictly larger key, so it keeps
    the order among elements of equal key. *)
Lemma insert_desc_stable (c : Z) (x : A) (l : list A) :
  filter (fun y => key y = c) (insert_desc key x l)
  = filter (fun y => key y = c) (x :: l).
Proof.
  induction l as [|y l IH]; cbn [insert_desc]; [reflexivity|].
  destruct (Z.ltb_spec (key x) (key y)) as [Hlt|Hge]; [|reflexivity].
  rewrite (filter_cons _ y), IH, !filter_cons.
  destruct (decide (key y = c)) as [Hy|Hy], (decide (key x = c)) as [Hx|Hx];
    try reflexivity. lia.
Qed.

Lemma sorted_desc_stable (c : Z) (l : list A) :
  filter (fun y => key y = c) (sorted_desc key l) = filter (fun y => key y = c) l.
Proof.
  induction l as [|x l IH]; [reflexivity|].
  cbn [sorted_desc foldr]. rewrite insert_desc_stable, !filter_cons.
  fold (sorted_desc key l). now rewrite IH.
Qed.

(** In a descending list, nothing beyond position [n] exceeds anything up
    to it. *)
Lemma descending_take_drop (n : nat) (l : list A) (a b : A) :
  descending key l -> a ∈ take n l -> b ∈ drop n l -> key b <= key a.
Proof.
  unfold descending. intros Hl. revert n a b.
  induction Hl as [|y l Hl IH Hy]; intros n a b Ha Hb.
  - rewrite take_nil in Ha. by apply elem_of_nil in Ha.
  - destruct n as [|n]; [by apply elem_of_nil in Ha|].
    cbn [take drop] in Ha, Hb. apply elem_of_cons in Ha as [->|Ha].
    + assert (Hin : b ∈ l) by (eapply subseteq_drop, Hb).
      clear Hb. revert b Hin. now apply Forall_forall.
    + now apply (IH n a b).
Qed.
End Descending.

Lemma sorted_by_clicks_desc (d : list (string * Direct.bucket)) :
  Direct.sorted_by_clicks d = sorted_desc (fun gd => Direct.clicks gd.2) d.
Proof.
  unfold Direct.sorted_by_clicks, sorted_desc.
  induction d as [|x d IH]; [reflexivity|]. cbn [foldr]. rewrite IH.
  generalize (foldr (insert_desc (fun gd => Direct.clicks gd.2)) [] d).
  intros l. induction l as [|y l IHl]; [reflexivity|].
  cbn [Direct.insert_by_clicks insert_desc]. now rewrite IHl.
Qed.

Lemma sorted_by_visits_desc (l : list Metrica.source_row) :
  Metrica.sorted_by_visits l = sorted_desc Metrica.source_visits l.
Proof.
  unfold Metrica.sorted_by_visits, sorted_desc.
  induction l as [|x l IH]; [reflexivity|]. cbn [foldr]. rewrite IH.
  generalize (foldr (insert_desc Metrica.source_visits) [] l).
  intros l'. induction l' as [|y l' IHl]; [reflexivity|].
  cbn [Metrica.insert_by_visits insert_desc]. now rewrite IHl.
Qed.

(** X5. The table of ad groups lists every group exactly once (the sorted
    list is a permutation of the groups), by descending clicks, and groups
    with equal clicks keep the order in which they were first seen. *)
Theorem sorted_by_clicks_stable_descending (d : list (string * Direct.bucket)) :
  Direct.sorted_by_clicks d ≡ₚ d
  /\ descending (fun gd => Direct.clicks gd.2) (Direct.sorted_by_clicks d)
  /\ (forall c, filter (fun gd => Direct.clicks gd.2 = c) (Direct.sorted_by_clicks d)
                = filter (fun gd => Direct.clicks gd.2 = c) d).
Proof.
  rewrite sorted_by_clicks_desc. split_and!.
  - apply sorted_desc_perm.
  - apply sorted_desc_descending.
  - intros c. apply sorted_desc_stable.
Qed.

(** X6. The table of traffic sources of the Metrica report: every source
    once, by descending visits, sources with equal visits in the order the
    API gave them. *)
Theorem sorted_by_visits_stable_descending (l : list Metrica.source_row) :
  Metrica.sorted_by_visits l ≡ₚ l
  /\ descending Metrica.source_visits (Metrica.sorted_by_visits l)
  /\ (forall c, filter (fun r => Metrica.source_visits r = c) (Metrica.sorted_by_visits l)
                = filter (fun r => Metrica.source_visits r = c) l).
Proof.
  rewrite sorted_by_visits_desc. split_and!.
  - apply sorted_desc_perm.
  - apply sorted_desc_descending.
  - intros c. apply sorted_desc_stable.
Qed.

End OrderProps.

(** ** The buckets [generate_report_md] builds *)

Module BucketProps.
Import Py Direct Tables Scenarios.

Lemma update_keys (g : string) (f : bucket -> bucket) (d : list (string * bucket)) :
  (update g f d).*1 = if decide (g ∈ d.*1) then d.*1 else d.*1 ++ [g].
Proof.
  induction d as [|[g' b] d IH]; cbn [update].
  - destruct (decide (g ∈ [])) as [Hin|_]; [by apply elem_of_nil in Hin | reflexivity].
  - destruct (String.eqb_spec g g') as [->|Hne]; rewrite !fmap_cons; cbn [fst].
    + destruct (decide (g' ∈ g' :: d.*1)) as [_|Hout]; [reflexivity|].
      exfalso. apply Hout. left.
    + rewrite IH. destruct (decide (g ∈ d.*1)) as [Hin|Hout].
      * destruct (decide (g ∈ g' :: d.*1)) as [_|Hout']; [reflexivity|].
        exfalso. apply Hout'. now right.
      * destruct (decide (g ∈ g' :: d.*1)) as [Hin'|_]; [|reflexivity].
        apply elem_of_cons in Hin' as [?|?]; congruence.
Qed.

(** Updating one group changes the bucket found for that group and for no
    other. *)
Lemma lookup_update (g g' : string) (f : bucket -> bucket) (d : list (string * bucket)) :
  lookup_bucket g (update g' f d)
  = if decide (g = g') then f (lookup_bucket g d) else lookup_bucket g d.
Proof.
  induction d as [|[k b] d IH]; cbn [update lookup_bucket].
  - destruct (String.eqb_spec g g'), (decide (g = g')); congruence.
  - destruct (String.eqb_spec g' k) as [->|Hne]; cbn [lookup_bucket].
    + destruct (String.eqb_spec g k), (decide (g = k)); congruence.
    + rewrite IH. destruct (decide (g = g')) as [Hgg|Hgg], (String.eqb_spec g k) as [Hgk|Hgk];
        try reflexivity. congruence.
Qed.

Lemma first_seen_snoc (l : list string) (x : string) :
  first_seen (l ++ [x]) = if decide (x ∈ l) then first_seen l else first_seen l ++ [x].
Proof.
  unfold first_seen. rewrite reverse_snoc. cbn [remove_dups].
  destruct (decide_rel elem_of x (reverse l)) as [Hin|Hout];
    destruct (decide (x ∈ l)) as [Hin'|Hout']; try reflexivity.
  - exfalso. apply Hout'. now apply elem_of_reverse.
  - exfalso. apply Hout. now apply elem_of_reverse.
  - now rewrite reverse_cons.
Qed.

Lemma elem_of_first_seen (l : list string) (x : string) : x ∈ first_seen l <-> x ∈ l.
Proof. unfold first_seen. now rewrite elem_of_reverse, elem_of_remove_dups, elem_of_reverse. Qed.

Lemma NoDup_first_seen (l : list string) : NoDup (first_seen l).
Proof. unfold first_seen. rewrite reverse_Permutation. apply NoDup_remove_dups. Qed.

Lemma add_row_inv (key : string) (d d' : list (string * bucket)) (r : row) :
  add_row key d r = Ok d' ->
  exists i c x,
    metric_int r "Impressions" = Ok i /\ metric_int r "Clicks" = Ok c
    /\ metric_float r "Cost" = Ok x
    /\ d' = update (group_of key r) (add_metrics i c x) d.
Proof.
  unfold add_row, group_of.
  destruct (metric_int r "Impressions") as [i|e]; [|discriminate].
  destruct (metric_int r "Clicks") as [c|e]; [|discriminate].
  destruct (metric_float r "Cost") as [x|e]; [|discriminate].
  cbn [bind]. intros [= <-]. eauto 8.
Qed.

Lemma aggregate_from_keys (key : string) (rows : list row) (prefix : list string)
    (d0 d : list (string * bucket)) :
  d0.*1 = first_seen prefix ->
  aggregate_from key d0 rows = Ok d ->
  d.*1 = first_seen (prefix ++ (group_of key <$> rows)).
Proof.
  revert prefix d0. induction rows as [|r rows IH]; intros prefix d0 Hd0 Hagg;
    cbn [aggregate_from] in Hagg.
  - injection Hagg as <-. now rewrite app_nil_r.
  - destruct (add_row key d0 r) as [d1|e] eqn:E; [|discriminate]. cbn [bind] in Hagg.
    apply add_row_inv in E as (i & c & x & _ & _ & _ & ->).
    rewrite fmap_cons, cons_middle, app_assoc.
    refine (IH _ _ _ Hagg).
    rewrite update_keys, first_seen_snoc, Hd0.
    destruct (decide (group_of key r ∈ first_seen prefix)) as [Hin|Hout];
      destruct (decide (group_of key r ∈ prefix)) as [Hin'|Hout']; try reflexivity.
    + exfalso. apply Hout'. now apply elem_of_first_seen.
    + exfalso. apply Hout. now apply elem_of_first_seen.
Qed.

Lemma aggregate_keys (key : string) (rows : list row) (d : list (string * bucket)) :
  aggregate key rows = Ok d ->
  d.*1 = first_seen (group_of key <$> rows)
  /\ NoDup d.*1
  /\ (forall g, g ∈ d.*1 <-> exists r, r ∈ rows /\ default missing_key (r !! key) = g).
Proof.
  intros Hagg.
  assert (Hkeys : d.*1 = first_seen (group_of key <$> rows)).
  { apply (aggregate_from_keys key rows [] [] d); [reflexivity | exact Hagg]. }
  rewrite Hkeys. split_and!; [reflexivity | apply NoDup_first_seen |].
  intros g. rewrite elem_of_first_seen, list_elem_of_fmap. unfold group_of.
  split; intros (r & H1 & H2); exists r; split; try assumption; congruence.
Qed.

(** X7. The groups of a grouping: one bucket per distinct value of the key
    column, in the order in which the values first occur in the rows; a row
    without the column falls into the group named by the dash. *)
Theorem aggregate_groups (key : string) (rows : list row) (d : list (string * bucket)) :
  aggregate key rows = Ok d ->
  d.*1 = first_seen (group_of key <$> rows)
  /\ NoDup d.*1
  /\ (forall g, g ∈ d.*1 <-> exists r, r ∈ rows /\ default missing_key (r !! key) = g).
Proof. apply aggregate_keys. Qed.

Lemma aggregate_from_bucket (key g : string) (rows : list row)
    (d0 d : list (string * bucket)) :
  aggregate_from key d0 rows = Ok d ->
  exists li lc lx,
    traverse (fun r => metric_int r "Impressions")
      (filter (fun r => group_of key r = g) rows) = Ok li
    /\ traverse (fun r => metric_int r "Clicks")
         (filter (fun r => group_of key r = g) rows) = Ok lc
    /\ traverse (fun r => metric_float r "Cost")
         (filter (fun r => group_of key r = g) rows) = Ok lx
    /\ impressions (lookup_bucket g d) = impressions (lookup_bucket g d0) + Zsum li
    /\ clicks (lookup_bucket g d) = clicks (lookup_bucket g d0) + Zsum lc
    /\ (cost (lookup_bucket g d) == cost (lookup_bucket g d0) + Qsum lx)%Q.
Proof.
  revert d0. induction rows as [|r rows IH]; intros d0 Hagg; cbn [aggregate_from] in Hagg.
  - injection Hagg as <-. exists [], [], []. rewrite filter_nil. cbn [traverse].
    unfold Zsum, Qsum. cbn [foldl]. split_and!; try reflexivity; try lia. ring.
  - destruct (add_row key d0 r) as [d1|e] eqn:E; [|discriminate]. cbn [bind] in Hagg.
    apply add_row_inv in E as (i & c & x & Ei & Ec & Ex & ->).
    destruct (IH _ Hagg) as (li & lc & lx & Hli & Hlc & Hlx & Hi & Hc & Hx).
    rewrite lookup_update in Hi, Hc, Hx. rewrite filter_cons.
    destruct (decide (group_of key r = g)) as [Hg|Hg].
    + destruct (decide (g = group_of key r)) as [_|Hne]; [|congruence].
      exists (i :: li), (c :: lc), (x :: lx). cbn [traverse].
      rewrite Ei, Ec, Ex, Hli, Hlc, Hlx. cbn [bind].
      rewrite !AggregatorProps.Zsum_cons, AggregatorProps.Qsum_cons, Hi, Hc, Hx.
      cbn [add_metrics impressions clicks cost]. split_and!; try reflexivity; try lia. ring.
    + destruct (decide (g = group_of key r)) as [Heq|_]; [congruence|].
      exists li, lc, lx. split_and!; assumption.
Qed.

(** X8. What a bucket holds.  For every group, its bucket's impressions,
    clicks and cost are the sums of these fields over exactly the rows of
    that group; a group without rows reads as the empty bucket. *)
Theorem aggregate_bucket_sums (key : string) (rows : list row) (d : list (string * bucket))
    (g : string) :
  aggregate key rows = Ok d ->
  sum_int "Impressions" (filter (fun r => default missing_key (r !! key) = g) rows)
  = Ok (impressions (lookup_bucket g d))
  /\ sum_int "Clicks" (filter (fun r => default missing_key (r !! key) = g) rows)
     = Ok (clicks (lookup_bucket g d))
  /\ exists x,
       sum_float "Cost" (filter (fun r => default missing_key (r !! key) = g) rows) = Ok x
       /\ (x == cost (lookup_bucket g d))%Q.
Proof.
  intros Hagg.
  destruct (aggregate_from_bucket key g rows [] d Hagg)
    as (li & lc & lx & Hli & Hlc & Hlx & Hi & Hc & Hx).
  unfold group_of in Hli, Hlc, Hlx. unfold sum_int, sum_float.
  rewrite Hli, Hlc, Hlx. cbn [bind]. cbn [lookup_bucket empty_bucket impressions clicks cost] in *.
  split_and!; [f_equal; lia | f_equal; lia |].
  eexists. split; [reflexivity|]. rewrite Hx. ring.
Qed.

Lemma aggregate_groups_witness :
  two_days_groups.*1 = first_seen (group_of "AdGroupName" <$> parse_tsv two_days_payload)
  /\ NoDup two_days_groups.*1.
Proof.
  assert (H : aggregate "AdGroupName" (parse_tsv two_days_payload) = Ok two_days_groups)
    by (vm_compute; reflexivity).
  destruct (aggregate_groups _ _ _ H) as (Hkeys & Hnodup & _).
  split; assumption.
Defined.

Lemma aggregate_bucket_sums_witness :
  sum_int "Impressions"
    (filter (fun r => default missing_key (r !! "Date") = "2024-01-02")
       (parse_tsv two_days_payload))
  = Ok (impressions (lookup_bucket "2024-01-02" two_days_days)).
Proof.
  assert (H : aggregate "Date" (parse_tsv two_days_payload) = Ok two_days_days)
    by (vm_compute; reflexivity).
  exact (proj1 (aggregate_bucket_sums _ _ _ "2024-01-02" H)).
Defined.

(** *** The table of days *)

Lemma insert_key_perm (k : string) (l : list string) : insert_key k l ≡ₚ k :: l.
Proof.
  induction l as [|k' l IH]; cbn [insert_key]; [reflexivity|].
  destruct (String.ltb k' k); [|reflexivity]. rewrite IH. apply Permutation_swap.
Qed.

Lemma sorted_keys_perm (d : list (string * bucket)) : sorted_keys d ≡ₚ d.*1.
Proof.
  unfold sorted_keys. induction (d.*1) as [|k l IH]; [reflexivity|].
  cbn [foldr]. rewrite insert_key_perm. now apply Permutation_skip.
Qed.

Lemma ltb_leb (a b : string) : String.ltb a b = true -> String.leb a b = true.
Proof. unfold String.ltb, String.leb. destruct (String.compare a b); congruence. Qed.

Lemma not_ltb_leb (a b : string) : String.ltb a b = false -> String.leb b a = true.
Proof.
  unfold String.ltb, String.leb. rewrite (String.compare_antisym b a).
  destruct (String.compare a b); cbn; congruence.
Qed.

Lemma insert_key_hd (a k : string) (l : list string) :
  String.leb a k = true ->
  HdRel (fun a b => String.leb a b = true) a l ->
  HdRel (fun a b => String.leb a b = true) a (insert_key k l).
Proof.
  intros Hak Hl. destruct l as [|k' l]; cbn [insert_key]; [now apply HdRel_cons|].
  destruct (String.ltb k' k); [|now apply HdRel_cons].
  apply HdRel_cons. now apply HdRel_inv in Hl.
Qed.

Lemma insert_key_ascending (k : string) (l : list string) :
  ascending l -> ascending (insert_key k l).
Proof.
  unfold ascending. induction 1 as [|k' l Hl IH Hhd]; cbn [insert_key].
  - apply Sorted_cons; [apply Sorted_nil | apply HdRel_nil].
  - destruct (String.ltb k' k) eqn:E.
    + apply Sorted_cons; [exact IH|]. apply insert_key_hd; [now apply ltb_leb | exact Hhd].
    + apply Sorted_cons; [now apply Sorted_cons|]. apply HdRel_cons. now apply not_ltb_leb.
Qed.

Lemma sorted_keys_ascending (d : list (string * bucket)) : ascending (sorted_keys d).
Proof.
  unfold sorted_keys. induction (d.*1) as [|k l IH]; [apply Sorted_nil|].
  cbn [foldr]. now apply insert_key_ascending.
Qed.

Lemma lookup_bucket_other (k0 : string) (b0 : bucket) (d : list (string * bucket))
    (keys : list string) :
  k0 ∉ keys ->
  (fun k => (k, lookup_bucket k ((k0, b0) :: d))) <$> keys
  = (fun k => (k, lookup_bucket k d)) <$> keys.
Proof.
  induction keys as [|k keys IH]; intros Hk; [reflexivity|].
  apply not_elem_of_cons in Hk as [Hne Hk]. rewrite !fmap_cons, (IH Hk).
  cbn [lookup_bucket]. destruct (String.eqb_spec k k0); [congruence | reflexivity].
Qed.

(** With distinct keys, looking every key up gives the dictionary back. *)
Lemma lookup_bucket_all (d : list (string * bucket)) :
  NoDup d.*1 -> (fun k => (k, lookup_bucket k d)) <$> d.*1 = d.
Proof.
  induction d as [|[k0 b0] d IH]; intros Hnd; [reflexivity|].
  rewrite fmap_cons in Hnd. apply NoDup_cons in Hnd as [Hk0 Hnd].
  rewrite !fmap_cons. cbn [fst]. rewrite (lookup_bucket_other _ _ _ _ Hk0), (IH Hnd).
  cbn [lookup_bucket]. now rewrite String.eqb_refl.
Qed.

(** X9. The table of days has one line per day of the rows, each with the
    bucket of that day, in ascending order of the date strings. *)
Theorem days_table (rows : list row) (days : list (string * bucket)) :
  aggregate "Date" rows = Ok days ->
  ascending (sorted_keys days)
  /\ NoDup (sorted_keys days)
  /\ (forall d, d ∈ sorted_keys days
                <-> exists r, r ∈ rows /\ default missing_key (r !! "Date") = d)
  /\ ((fun d => (d, lookup_bucket d days)) <$> sorted_keys days) ≡ₚ days.
Proof.
  intros Hagg. destruct (aggregate_keys _ _ _ Hagg) as (_ & Hnd & Hmem).
  split_and!.
  - apply sorted_keys_ascending.
  - now rewrite sorted_keys_perm.
  - intros d. now rewrite sorted_keys_perm.
  - rewrite sorted_keys_perm. now rewrite lookup_bucket_all.
Qed.

Lemma days_table_witness :
  ascending (sorted_keys two_days_days)
  /\ ((fun d => (d, lookup_bucket d two_days_days)) <$> sorted_keys two_days_days)
     ≡ₚ two_days_days.
Proof.
  assert (H : aggregate "Date" (parse_tsv two_days_payload) = Ok two_days_days)
    by (vm_compute; reflexivity).
  destruct (days_table _ _ H) as (Hasc & _ & _ & Hperm).
  split; assumption.
Defined.

End BucketProps.

(** ** When [generate_report_md] returns a report *)

Module ReportProps.
Import Py Direct Tables Scenarios.








Lemma length_split (sep : ascii) (s : string) :
  length (split sep s) = S (count_char sep s).
Proof.
  induction s as [|c s IH]; [reflexivity|]. cbn [split count_char].
  destruct (Ascii.eqb c sep); [cbn [length]; now rewrite IH|].
  destruct (split sep s) as [|w ws]; [discriminate | exact IH].
Qed.

(** X11. The number of rows is the number of line feeds in the stripped
    payload; a payload without any (the header line alone, or nothing) gives
    no rows, and the report is then the header and the no-data note. *)
Theorem parse_tsv_row_count (tsv_data : string) :
  length (parse_tsv tsv_data) = count_char LF (strip tsv_data)
  /\ (count_char LF (strip tsv_data) = O ->
      forall now date_from date_to business,
        generate_report_md now (parse_tsv tsv_data) date_from date_to business
        = Ok (report_header now date_from date_to business +:+ no_data_note)).
Proof.
  assert (Hlen : length (parse_tsv tsv_data) = count_char LF (strip tsv_data)).
  { unfold parse_tsv. pose proof (length_split LF (strip tsv_data)) as H.
    destruct (split LF (strip tsv_data)) as [|header data]; [discriminate|].
    rewrite length_fmap. cbn [length] in H. lia. }
  split; [exact Hlen|]. intros Hzero now date_from date_to business.
  rewrite Hzero in Hlen. apply length_zero_iff_nil in Hlen. rewrite Hlen. reflexivity.
Qed.

Lemma parse_tsv_row_count_witness :
  generate_report_md at_0800 (parse_tsv "Date	AdGroupName	Impressions	Clicks	Cost")
    "2024-01-01" "2024-01-07" "netashi"
  = Ok (report_header at_0800 "2024-01-01" "2024-01-07" "netashi" +:+ no_data_note).
Proof.
  apply (proj2 (parse_tsv_row_count "Date	AdGroupName	Impressions	Clicks	Cost")).
  reflexivity.
Defined.

End ReportProps.

(** ** The Metrica API client *)

Module MetricaApiProps.
Import Py MetricaApi Tables Scenarios.

Lemma for_each_Forall2 {A B : Type} (f : A -> outcome B) (xs : list A) (ys : list B) :
  for_each f xs = Done ys <-> Forall2 (fun x y => f x = Done y) xs ys.
Proof.
  revert ys. induction xs as [|x xs IH]; intros ys; cbn [for_each].
  - split.
    + intros [= <-]. apply Forall2_nil_2.
    + intros H. apply Forall2_nil_inv_l in H. now subst ys.
  - split.
    + destruct (f x) as [y|e] eqn:E; [|discriminate]. cbn [and_then].
      destruct (for_each f xs) as [ys'|e] eqn:E'; [|discriminate]. cbn [and_then].
      intros [= <-]. constructor; [exact E | now apply IH].
    + intros (y & ys' & Hy & Hys & ->)%Forall2_cons_inv_l.
      rewrite Hy. cbn [and_then]. apply IH in Hys. rewrite Hys. reflexivity.
Qed.

Lemma for_each_failed {A B : Type} (f : A -> outcome B) (xs : list A) (x : A) :
  x ∈ xs -> (forall y, f x <> Done y) -> forall ys, for_each f xs <> Done ys.
Proof.
  intros Hx Hfail ys Hdone. apply for_each_Forall2 in Hdone.
  apply list_elem_of_lookup in Hx as [i Hi].
  destruct (Forall2_lookup_l _ _ _ _ _ Hdone Hi) as (y & _ & Hy). now apply (Hfail y).
Qed.

Lemma get_metrica_data_ok (api : service)
    (token counter_id date_from date_to metrics dimensions group : string) :
  status_code (api (make_request token counter_id date_from date_to metrics dimensions group))
  = 200 ->
  get_metrica_data api token counter_id date_from date_to metrics dimensions group
  = Done (default []
            (data (api (make_request token counter_id date_from date_to metrics
                          dimensions group)))).
Proof. intros H. unfold get_metrica_data. now rewrite H. Qed.

Lemma get_metrica_data_rejected (api : service)
    (token counter_id date_from date_to metrics dimensions group : string) :
  status_code (api (make_request token counter_id date_from date_to metrics dimensions group))
  <> 200 ->
  get_metrica_data api token counter_id date_from date_to metrics dimensions group
  = Failed (ApiError
              ("Metrica API Error "
               +:+ str_int (status_code
                              (api (make_request token counter_id date_from date_to metrics
                                      dimensions group)))
               +:+ ": "
               +:+ text (api (make_request token counter_id date_from date_to metrics
                                dimensions group)))).
Proof. intros H. unfold get_metrica_data. apply Z.eqb_neq in H. now rewrite H. Qed.

(** *** Search phrases *)

Lemma query_row_of_some (it : item) (r : Metrica.query_row) :
  query_row_of it = Done (Some r)
  <-> exists m0,
        dimensions it !! O = Some (Metrica.query r)
        /\ metrics it !! O = Some m0
        /\ Metrica.query_visits r = int_of_float m0
        /\ Metrica.query r <> "" /\ Metrica.query r <> not_set.
Proof.
  unfold query_row_of, index. destruct (dimensions it !! O) as [q|] eqn:Eq; cbn [and_then].
  - destruct (String.eqb_spec q "") as [Hq|Hq]; cbn [negb andb].
    + split; [discriminate|]. intros (m0 & [= <-] & _ & _ & Hne & _). congruence.
    + destruct (String.eqb_spec q not_set) as [Hn|Hn]; cbn [negb].
      * split; [discriminate|]. intros (m0 & [= <-] & _ & _ & _ & Hne). congruence.
      * destruct (metrics it !! O) as [m0|]; cbn [and_then].
        -- split.
           ++ intros [= <-]. exists m0. cbn. split_and!; auto.
           ++ intros (m0' & [= ->] & [= <-] & Hv & _ & _). destruct r as [rq rv].
              cbn in Hv |- *. now rewrite Hv.
        -- split; [discriminate|]. intros (m0 & _ & [=] & _).
  - split; [discriminate|]. intros (m0 & [=] & _).
Qed.

(** X12. The search phrases [get_search_queries] returns: a row for every
    record of the answer whose phrase is neither empty nor the placeholder
    [(not set)], and for no other; sorted by descending visits.  Hence the 20
    rows the report shows are the most visited: no row left out has more
    visits than a row shown. *)
Theorem get_search_queries_sorted (api : service) (token counter_id date_from date_to : string)
    (rows : list Metrica.query_row) :
  get_search_queries api token counter_id date_from date_to = Done rows ->
  descending Metrica.query_visits rows
  /\ (forall r,
        r ∈ rows
        <-> exists it m0,
              it ∈ default []
                     (data (api (make_request token counter_id date_from date_to
                                   "ym:s:visits" "ym:s:lastSearchPhrase" default_group)))
              /\ dimensions it !! O = Some (Metrica.query r)
              /\ metrics it !! O = Some m0
              /\ Metrica.query_visits r = int_of_float m0
              /\ Metrica.query r <> "" /\ Metrica.query r <> not_set)
  /\ (forall a b,
        a ∈ take 20 rows -> b ∈ drop 20 rows ->
        Metrica.query_visits b <= Metrica.query_visits a).
Proof.
  unfold get_search_queries, get_metrica_data.
  set (resp := api _). destruct (status_code resp =? 200); cbn [negb and_then]; [|discriminate].
  destruct (for_each query_row_of (default [] (data resp))) as [rows0|e] eqn:E;
    cbn [and_then]; [|discriminate].
  intros [= <-]. apply for_each_Forall2 in E.
  pose proof (OrderProps.sorted_desc_descending Metrica.query_visits (omap id rows0)) as Hdesc.
  split_and!.
  - exact Hdesc.
  - intros r. rewrite (OrderProps.sorted_desc_perm Metrica.query_visits (omap id rows0)).
    rewrite list_elem_of_omap. split.
    + intros (o & Ho & Hid). cbn in Hid. subst o.
      apply list_elem_of_lookup in Ho as [i Hi].
      destruct (Forall2_lookup_r _ _ _ _ _ E Hi) as (it & Hit & Hrow).
      apply query_row_of_some in Hrow as (m0 & H).
      exists it, m0. split; [eapply list_elem_of_lookup_2, Hit | exact H].
    + intros (it & m0 & Hit & H).
      assert (Hrow : query_row_of it = Done (Some r)) by (apply query_row_of_some; eauto).
      apply list_elem_of_lookup in Hit as [i Hi].
      destruct (Forall2_lookup_l _ _ _ _ _ E Hi) as (o & Ho & Hrow').
      exists o. split; [eapply list_elem_of_lookup_2, Ho|]. cbn. congruence.
  - intros a b. now apply OrderProps.descending_take_drop.
Qed.

Lemma get_search_queries_sorted_witness :
  descending Metrica.query_visits
    [ {| Metrica.query := "rolls near me"; Metrica.query_visits := 7 |};
      {| Metrica.query := "sushi delivery"; Metrica.query_visits := 3 |} ].
Proof.
  apply (get_search_queries_sorted phrases_api "token" "12345678" "2024-01-01" "2024-01-07").
  reflexivity.
Defined.

(** *** Traffic by day *)

Lemma traffic_row_of_cases (it : item) :
  (exists r, traffic_row_of it = Done r
             /\ (1 <= length (dimensions it))%nat /\ (5 <= length (metrics it))%nat
             /\ dimensions it !! O = Some (Metrica.date r)
             /\ int_of_float <$> metrics it !! O = Some (Metrica.visits r)
             /\ int_of_float <$> metrics it !! 1%nat = Some (Metrica.users r)
             /\ int_of_float <$> metrics it !! 2%nat = Some (Metrica.pageviews r)
             /\ (fun x => round_ndigits x 1) <$> metrics it !! 3%nat
                = Some (Metrica.bounce_rate r)
             /\ (fun x => round_ndigits x 0) <$> metrics it !! 4%nat
                = Some (Metrica.avg_duration r))
  \/ (exists msg, traffic_row_of it = Failed (IndexError msg)
                  /\ (dimensions it = [] \/ (length (metrics it) < 5)%nat)).
Proof.
  unfold traffic_row_of, index.
  destruct (dimensions it) as [|d ds]; cbn [lookup list_lookup and_then].
  { right. eexists. split; [reflexivity | now left]. }
  destruct (metrics it) as [|m0 [|m1 [|m2 [|m3 [|m4 rest]]]]];
    cbn [lookup list_lookup and_then length];
    try (right; eexists; split; [reflexivity | right; lia]).
  left. eexists. split; [reflexivity|]. cbn. split_and!; try reflexivity; lia.
Qed.

Lemma for_each_cases {A B : Type} (f : A -> outcome B) (xs : list A) :
  (forall x, x ∈ xs -> (exists y, f x = Done y) \/ (exists msg, f x = Failed (IndexError msg))) ->
  (exists ys, for_each f xs = Done ys) \/ (exists msg, for_each f xs = Failed (IndexError msg)).
Proof.
  induction xs as [|x xs IH]; intros Hall; cbn [for_each]; [eauto|].
  destruct (Hall x) as [[y ->]|[msg ->]]; [left| |cbn [and_then]; eauto]. cbn [and_then].
  destruct IH as [[ys ->]|[msg ->]]; [intros x' Hx'; apply Hall; now right| |];
    cbn [and_then]; eauto.
Qed.

(** X13. The daily rows [get_traffic_summary] returns.  An answer with
    another status than 200 raises the API error with that status and text.
    An answer with status 200 gives one row per record, in the same order,
    built from the record's first dimension and first five metrics (counts
    truncated to integers, bounce rate rounded to one decimal, duration to a
    whole number); a record without a dimension or with fewer than five
    metrics makes the call raise [IndexError] instead. *)
Theorem get_traffic_summary_rows (api : service) (token counter_id date_from date_to : string) :
  (status_code (api (traffic_request token counter_id date_from date_to)) <> 200 ->
     get_traffic_summary api token counter_id date_from date_to
     = Failed (ApiError
                 ("Metrica API Error "
                  +:+ str_int (status_code
                                 (api (traffic_request token counter_id date_from date_to)))
                  +:+ ": "
                  +:+ text (api (traffic_request token counter_id date_from date_to)))))
  /\ (status_code (api (traffic_request token counter_id date_from date_to)) = 200 ->
      forall rows,
        get_traffic_summary api token counter_id date_from date_to = Done rows ->
        length rows
        = length (default [] (data (api (traffic_request token counter_id date_from date_to))))
        /\ (forall i it r,
              default [] (data (api (traffic_request token counter_id date_from date_to))) !! i
              = Some it ->
              rows !! i = Some r ->
              dimensions it !! O = Some (Metrica.date r)
              /\ int_of_float <$> metrics it !! O = Some (Metrica.visits r)
              /\ int_of_float <$> metrics it !! 1%nat = Some (Metrica.users r)
              /\ int_of_float <$> metrics it !! 2%nat = Some (Metrica.pageviews r)
              /\ (fun x => round_ndigits x 1) <$> metrics it !! 3%nat
                 = Some (Metrica.bounce_rate r)
              /\ (fun x => round_ndigits x 0) <$> metrics it !! 4%nat
                 = Some (Metrica.avg_duration r)))
  /\ (status_code (api (traffic_request token counter_id date_from date_to)) = 200 ->
      ((forall it,
           it ∈ default [] (data (api (traffic_request token counter_id date_from date_to))) ->
           (1 <= length (dimensions it))%nat /\ (5 <= length (metrics it))%nat)
       <-> exists rows, get_traffic_summary api token counter_id date_from date_to = Done rows)
      /\ ((exists rows, get_traffic_summary api token counter_id date_from date_to = Done rows)
          \/ (exists msg, get_traffic_summary api token counter_id date_from date_to
                          = Failed (IndexError msg)))).
Proof.
  unfold get_traffic_summary, traffic_request. set (resp := api _). split_and!.
  - intros Hst. subst resp. rewrite (get_metrica_data_rejected _ _ _ _ _ _ _ _ Hst).
    reflexivity.
  - intros Hst rows. subst resp. rewrite (get_metrica_data_ok _ _ _ _ _ _ _ _ Hst).
    set (resp := api _). cbn [and_then]. intros Hrows%for_each_Forall2.
    split; [symmetry; eapply Forall2_length, Hrows|].
    intros i it r Hit Hr.
    destruct (Forall2_lookup_l _ _ _ _ _ Hrows Hit) as (r' & Hr' & Hrow).
    assert (r' = r) as -> by congruence.
    destruct (traffic_row_of_cases it) as [(r0 & Hr0 & _ & _ & H)|(msg & Hfail & _)];
      [|congruence].
    assert (r0 = r) as -> by congruence. exact H.
  - intros Hst. subst resp. rewrite (get_metrica_data_ok _ _ _ _ _ _ _ _ Hst).
    set (resp := api _). cbn [and_then]. split.
    + split.
      * intros Hall.
        destruct (for_each_cases traffic_row_of (default [] (data resp)))
          as [Hdone|[msg Hfail]]; [|exact Hdone|].
        -- intros it _. destruct (traffic_row_of_cases it) as [(r & Hr & _)|(msg & Hm & _)];
             eauto.
        -- exfalso. revert Hfail.
           assert (Hok : Forall (fun it => exists r, traffic_row_of it = Done r)
                           (default [] (data resp))).
           { apply Forall_forall. intros it Hit. destruct (Hall it Hit) as [Hd Hm].
             destruct (traffic_row_of_cases it) as [(r & Hr & _)|(m & _ & [Hnil|Hshort])];
               [eauto | rewrite Hnil in Hd; cbn in Hd; lia | lia]. }
           clear Hall. induction Hok as [|it its [r Hr] _ IH]; cbn [for_each]; [discriminate|].
           rewrite Hr. cbn [and_then].
           destruct (for_each traffic_row_of its) as [ys|e]; cbn [and_then];
             [discriminate | exact IH].
      * intros [rows Hrows] it Hit.
        destruct (traffic_row_of_cases it) as [(r & _ & Hd & Hm & _)|(msg & Hfail & _)];
          [now split|].
        exfalso. eapply (for_each_failed traffic_row_of _ it Hit); [|exact Hrows].
        intros y. congruence.
    + apply for_each_cases. intros it _.
      destruct (traffic_row_of_cases it) as [(r & Hr & _)|(msg & Hm & _)]; eauto.
Qed.

Lemma get_traffic_summary_rows_witness :
  get_traffic_summary forbidden_api "token" "12345678" "2024-01-01" "2024-01-07"
  = Failed (ApiError "Metrica API Error 403: Access denied")
  /\ exists rows,
       get_traffic_summary one_day_api "token" "12345678" "2024-01-01" "2024-01-07"
       = Done rows.
Proof.
  split.
  - apply (proj1 (get_traffic_summary_rows forbidden_api "token" "12345678"
                    "2024-01-01" "2024-01-07")).
    vm_compute. discriminate.
  - apply (proj1 (proj2 (proj2 (get_traffic_summary_rows one_day_api "token" "12345678"
                                  "2024-01-01" "2024-01-07")) eq_refl)).
    intros it Hit. cbn in Hit. apply elem_of_cons in Hit as [->|Hit].
    + cbn. lia.
    + by apply elem_of_nil in Hit.
Defined.

End MetricaApiProps.

(** ** [append_to_csv]: batches with repeated dates, files without the header *)

Module StoreEdgeProps.
Import Py Metrica Scenarios.

Lemma records_for_after (traffic : list traffic_row) (csv_name : string) (w : world)
    (d : string) :
  stored w ->
  records_for d (append_to_csv traffic csv_name w).2
  = records_for d w
    ++ (csv_record <$> filter (fun r => date r = d) (new_rows (known_dates w) traffic)).
Proof.
  intros Hst. unfold records_for.
  now rewrite (StoreProps.append_to_csv_data_lines _ _ _ Hst), filter_app,
    StoreProps.filter_csv_records.
Qed.

(** X14. The records of one date after one call, on a store.  If the date
    was not in the file, its records are the incoming rows of that date, all
    of them and in order: a date that occurs twice in one batch is written
    twice.  If the date was in the file, its records are untouched. *)
Theorem append_to_csv_records_of_date (traffic : list traffic_row) (csv_name : string)
    (w : world) (d : string) :
  stored w ->
  (Some d ∉ known_dates w ->
     records_for d (append_to_csv traffic csv_name w).2
     = csv_record <$> filter (fun r => date r = d) traffic)
  /\ (Some d ∈ known_dates w ->
      records_for d (append_to_csv traffic csv_name w).2 = records_for d w).
Proof.
  intros Hst. rewrite (records_for_after _ _ _ _ Hst). split.
  - intros Hnew. unfold records_for at 1. rewrite (StoreProps.filter_none _ (data_lines w)).
    2:{ intros row Hrow Hhead. apply Hnew, (StoreProps.known_dates_stored w d Hst). eauto. }
    cbn [app]. f_equal. unfold new_rows. rewrite list_filter_filter.
    apply list_filter_iff. intros r. split; [tauto|]. intros Hr. split; [exact Hr|].
    now rewrite Hr.
  - intros Hold. rewrite (StoreProps.filter_none _ (new_rows _ traffic)).
    + cbn [fmap list_fmap]. apply app_nil_r.
    + intros r Hr Hd. apply StoreProps.new_rows_spec in Hr as [Hr _]. apply Hr.
      now rewrite Hd.
Qed.

Lemma append_to_csv_records_of_date_witness :
  records_for "2024-01-02" (append_to_csv [jan_2; jan_1; jan_2] "metrica.csv" store_with_jan_1).2
  = [csv_record jan_2; csv_record jan_2]
  /\ records_for "2024-01-01"
       (append_to_csv [jan_2; jan_1_recomputed; jan_2] "metrica.csv" store_with_jan_1).2
     = [csv_record jan_1].
Proof.
  assert (Hst : stored store_with_jan_1) by (right; eexists; reflexivity).
  split.
  - apply (proj1 (append_to_csv_records_of_date [jan_2; jan_1; jan_2] "metrica.csv"
                    store_with_jan_1 "2024-01-02" Hst)).
    vm_compute. intros H. discriminate H.
  - apply (proj2 (append_to_csv_records_of_date [jan_2; jan_1_recomputed; jan_2]
                    "metrica.csv" store_with_jan_1 "2024-01-01" Hst)).
    vm_compute. reflexivity.
Defined.

(** Without a column named as the store's date column, every line reads as
    the empty date. *)
Lemma reader_dict_no_date (fields : list string) (r : csv_row) :
  date_column ∉ fields -> reader_dict fields r !! date_column = None.
Proof.
  intros Hno. unfold reader_dict. rewrite StoreProps.foldl_none_notin.
  - rewrite StoreProps.foldl_some_notin; [apply lookup_empty|].
    intros Hin. apply Hno. eapply NormalizerProps.zip_fst_subseteq, Hin.
  - intros Hin. apply Hno. eapply subseteq_drop, Hin.
Qed.

Lemma existing_dates_no_date (fields : list string) (data : list csv_row) (d : string) :
  date_column ∉ fields -> Some d ∈ existing_dates (fields :: data) -> d = "".
Proof.
  intros Hno. unfold existing_dates, dict_reader.
  rewrite elem_of_list_to_set, list_elem_of_fmap.
  intros (m & Hd & Hm). apply list_elem_of_fmap in Hm as (r & -> & _).
  rewrite (reader_dict_no_date _ _ Hno) in Hd. cbn in Hd. congruence.
Qed.

Lemma filter_all {A : Type} (P : A -> Prop) `{forall x, Decision (P x)} (l : list A) :
  (forall x, x ∈ l -> P x) -> filter P l = l.
Proof.
  induction l as [|x l IH]; intros Hl; [reflexivity|].
  rewrite filter_cons. destruct (decide (P x)) as [_|Hx].
  - f_equal. apply IH. intros y Hy. apply Hl. now right.
  - exfalso. apply Hx, Hl. left.
Qed.

(** X15. Files the function did not create.  In an existing file whose first
    line has no column [Дата], or that is empty, no date is recognised:
    every incoming row with a non-empty date is appended at each call, after
    the old lines, and no header is written. *)
Theorem append_to_csv_unrecognised_file (traffic : list traffic_row) (csv_name : string)
    (w : world) (lines : list csv_row) :
  file w = Some lines ->
  date_column ∉ default [] (head lines) ->
  (forall r, r ∈ traffic -> date r <> "") ->
  file (append_to_csv traffic csv_name w).2 = Some (lines ++ (csv_record <$> traffic)).
Proof.
  intros Hfile Hno Hdates. rewrite (StoreProps.append_to_csv_existing _ _ _ _ Hfile).
  replace (new_rows (existing_dates lines) traffic) with traffic; [reflexivity|].
  symmetry. unfold new_rows. apply filter_all. intros r Hr Hin.
  destruct lines as [|fields data].
  - unfold existing_dates in Hin. cbn in Hin. by apply elem_of_empty in Hin.
  - apply (existing_dates_no_date _ _ _ Hno) in Hin. now apply (Hdates r).
Qed.

Lemma append_to_csv_unrecognised_file_witness :
  file (append_to_csv [jan_1] "metrica.csv" foreign_file).2
  = Some ([["date"; "visits"]; ["2024-01-01"; "10"]] ++ (csv_record <$> [jan_1]))
  /\ file (append_to_csv [jan_1] "metrica.csv" empty_file).2
     = Some ([] ++ (csv_record <$> [jan_1])).
Proof.
  assert (Hdates : forall r, r ∈ [jan_1] -> Metrica.date r <> "").
  { intros r Hr. apply elem_of_cons in Hr as [->|Hr]; [discriminate|].
    by apply elem_of_nil in Hr. }
  split.
  - apply (append_to_csv_unrecognised_file [jan_1] "metrica.csv" foreign_file);
      [reflexivity | | exact Hdates].
    cbn. intros H. repeat (apply elem_of_cons in H as [H|H]; [discriminate H|]).
    by apply elem_of_nil in H.
  - apply (append_to_csv_unrecognised_file [jan_1] "metrica.csv" empty_file);
      [reflexivity | | exact Hdates].
    cbn. apply not_elem_of_nil.
Defined.

(** X16. What is written can be read back.  On a store, the dates found in
    the file after a call are the dates found before it and the dates of the
    incoming rows, and no other: the next run knows every date of this one. *)
Theorem append_to_csv_dates_known (traffic : list traffic_row) (csv_name : string)
    (w : world) (d : string) :
  stored w ->
  Some d ∈ known_dates (append_to_csv traffic csv_name w).2
  <-> Some d ∈ known_dates w \/ exists r, r ∈ traffic /\ date r = d.
Proof. apply StoreProps.known_dates_after. Qed.

Lemma append_to_csv_dates_known_witness :
  Some "2024-01-02" ∈ known_dates (append_to_csv [jan_2] "metrica.csv" no_store).2.
Proof.
  apply (append_to_csv_dates_known [jan_2] "metrica.csv" no_store "2024-01-02").
  - left. reflexivity.
  - right. exists jan_2. split; [left | reflexivity].
Defined.

End StoreEdgeProps.
